(** * check-package-freshness.js: the pre-commit package freshness check

    A shallow embedding of [PackageFreshnessChecker]
    (src/check-package-freshness.js) and the properties of its version
    comparator, vulnerability check, freshness analysis, report and
    failure policy.

    Conventions of the embedding.
    - A JavaScript value that [JSON.parse] can produce, or that a property
      access on such a value can produce, is a [JSValue].  An object is the
      list of its own enumerable properties in enumeration order, which is
      the order [Object.keys], [Object.values] and [Object.entries] follow.
    - The checker instance ([this.warnings], [this.errors]) and the console
      are threaded through every method as a [State]; a method is a function
      from the state to a completion (normal value or thrown error) and the
      state it leaves behind.
    - The two shell commands are outside the program.  What [execSync],
      [String.prototype.trim] and [JSON.parse] make of a command is an input,
      an [ExecOutcome].
    - A string is held as the bytes of its UTF-8 text.
    - The numbers of a version are non-negative integers, or [Infinity].
      [parseInt] on a run of decimal digits gives the Number value of the
      integer that the digits denote: the integer itself up to 2^53, the
      nearest double beyond. *)

From Stdlib Require Import String Ascii List Bool Arith NArith PeanoNat Lia.
From Stdlib Require Import QArith_base DecimalString.
Import ListNotations.
Local Close Scope Q_scope.
Local Open Scope nat_scope.
Local Open Scope list_scope.
Local Open Scope string_scope.
#[local] Set Warnings "-register-all".

(* ===================================================================== *)
(** ** JavaScript values and errors *)
(* ===================================================================== *)

Module JS.

Inductive JSValue : Type :=
| JUndefined
| JNull
| JBool (b : bool)
| JNumber (x : Q)
| JString (s : string)
| JArray (items : list JSValue)
| JObject (props : list (string * JSValue)).

Inductive JSError : Type :=
| Error (message : string)
| TypeError (message : string)
| SyntaxError (message : string).

Definition message (e : JSError) : string :=
  match e with
  | Error m | TypeError m | SyntaxError m => m
  end.

(** The decimal rendering of a length or an array index in a template
    string. *)
Definition string_of_nat (n : nat) : string :=
  NilZero.string_of_uint (Nat.to_uint n).

Definition dquote : string := String (ascii_of_nat 34) EmptyString.

(** A UTF-16 code unit from U+0800 on as a string of its own: the three
    bytes that the scheme of UTF-8 gives it, also when it is a surrogate. *)
Definition three_bytes (u : N) : string :=
  String (ascii_of_N (224 + u / 4096))
    (String (ascii_of_N (128 + (u / 64) mod 64))
       (String (ascii_of_N (128 + u mod 64)) EmptyString)).

(** The two surrogates of the character that four bytes encode. *)
Definition surrogates (c1 c2 c3 c4 : ascii) : list string :=
  let code_point := ((N_of_ascii c1 mod 8) * 262144 + (N_of_ascii c2 mod 64) * 4096
                     + (N_of_ascii c3 mod 64) * 64 + N_of_ascii c4 mod 64)%N in
  let v := (code_point - 65536)%N in
  [three_bytes (55296 + v / 1024); three_bytes (56320 + v mod 1024)].

(** The one-character strings of a string value, as [Object.values] sees
    them: one for each UTF-16 code unit.  A character of one, two or three
    bytes is one unit; a character of four bytes is two, its surrogates. *)
Fixpoint chars (s : string) : list string :=
  match s with
  | EmptyString => []
  | String c1 r1 =>
      if (N_of_ascii c1 <? 192)%N then String c1 EmptyString :: chars r1
      else if (N_of_ascii c1 <? 224)%N then
        match r1 with
        | String c2 r2 => String c1 (String c2 EmptyString) :: chars r2
        | EmptyString => [s]
        end
      else if (N_of_ascii c1 <? 240)%N then
        match r1 with
        | String c2 (String c3 r3) =>
            String c1 (String c2 (String c3 EmptyString)) :: chars r3
        | _ => [s]
        end
      else
        match r1 with
        | String c2 (String c3 (String c4 r4)) =>
            (surrogates c1 c2 c3 c4 ++ chars r4)%list
        | _ => [s]
        end
  end.

Fixpoint indexed_from {A : Type} (i : nat) (l : list A) : list (string * A) :=
  match l with
  | [] => []
  | x :: rest => (string_of_nat i, x) :: indexed_from (S i) rest
  end.

(** Own enumerable string-keyed properties, the common core of
    [Object.keys], [Object.values] and [Object.entries].  [undefined] and
    [null] cannot be converted to an object; booleans and numbers have no
    own enumerable property; strings and arrays enumerate their indices. *)
Definition own_properties (v : JSValue) : JSError + list (string * JSValue) :=
  match v with
  | JUndefined | JNull =>
      inl (TypeError "Cannot convert undefined or null to object")
  | JBool _ | JNumber _ => inr []
  | JString s => inr (indexed_from 0 (map JString (chars s)))
  | JArray items => inr (indexed_from 0 items)
  | JObject props => inr props
  end.

Fixpoint lookup (name : string) (props : list (string * JSValue)) : JSValue :=
  match props with
  | [] => JUndefined
  | (k, v) :: rest => if String.eqb k name then v else lookup name rest
  end.

(** The member access [v.name] for the four names this program reads:
    [current], [latest], [severity] and [vulnerabilities].  None of them is
    a built-in property of a string, array, boolean or number, so on those
    the access gives [undefined]; on [undefined] and [null] it throws. *)
Definition get (v : JSValue) (name : string) : JSError + JSValue :=
  match v with
  | JUndefined =>
      inl (TypeError ("Cannot read properties of undefined (reading '" ++ name ++ "')"))
  | JNull =>
      inl (TypeError ("Cannot read properties of null (reading '" ++ name ++ "')"))
  | JObject props => inr (lookup name props)
  | _ => inr JUndefined
  end.

(** ToBoolean. *)
Definition truthy (v : JSValue) : bool :=
  match v with
  | JUndefined | JNull => false
  | JBool b => b
  | JNumber x => negb (Qeq_bool x (Qmake 0 1))
  | JString s => negb (String.eqb s "")
  | JArray _ | JObject _ => true
  end.

(** [['high', 'critical'].includes(v)]: SameValueZero against two strings. *)
Definition is_string (v : JSValue) (s : string) : bool :=
  match v with
  | JString t => String.eqb t s
  | _ => false
  end.

End JS.
Import JS.


(* ===================================================================== *)
(** ** The checker's state and its effects *)
(* ===================================================================== *)

(** A line written by [console.log] or by [console.error]. *)
Inductive Line : Type :=
| Stdout (text : string)
| Stderr (text : string).

(** [this.warnings], [this.errors] and what has been printed so far. *)
Record State : Type := mkState {
  warnings : list string;
  errors : list string;
  console : list Line
}.

Inductive Completion (A : Type) : Type :=
| Normal (a : A)
| Throw (e : JSError).
Arguments Normal {A} a.
Arguments Throw {A} e.

Definition M (A : Type) : Type := State -> Completion A * State.

Definition ret {A : Type} (a : A) : M A := fun st => (Normal a, st).

Definition bind {A B : Type} (m : M A) (k : A -> M B) : M B :=
  fun st =>
    match m st with
    | (Normal a, st') => k a st'
    | (Throw e, st') => (Throw e, st')
    end.

Definition throw {A : Type} (e : JSError) : M A := fun st => (Throw e, st).

(** A pure computation that may throw. *)
Definition lift {A : Type} (r : JSError + A) : M A :=
  match r with
  | inl e => throw e
  | inr a => ret a
  end.

(** [try { body } catch (error) { handler }]. *)
Definition try_catch {A : Type} (body : M A) (handler : JSError -> M A) : M A :=
  fun st =>
    match body st with
    | (Normal a, st') => (Normal a, st')
    | (Throw e, st') => handler e st'
    end.

(** Calling an [async] method whose body has no [await]: the body runs to
    completion at the call and the promise it returns is already settled. *)
Definition settled {A : Type} (m : M A) : M (Completion A) :=
  fun st => let (c, st') := m st in (Normal c, st').

(** [await] on a settled promise. *)
Definition await {A : Type} (c : Completion A) : M A :=
  match c with
  | Normal a => ret a
  | Throw e => throw e
  end.

Declare Scope checker_scope.
Delimit Scope checker_scope with checker.
Notation "x <- m ;; k" := (bind m (fun x => k))
  (at level 61, m at next level, right associativity) : checker_scope.
Notation "m ;; k" := (bind m (fun _ => k))
  (at level 61, right associativity) : checker_scope.
Local Open Scope checker_scope.

Definition console_log (text : string) : M unit :=
  fun st => (Normal tt, mkState (warnings st) (errors st) (console st ++ [Stdout text])%list).

Definition console_error (text : string) : M unit :=
  fun st => (Normal tt, mkState (warnings st) (errors st) (console st ++ [Stderr text])%list).

Definition push_warning (text : string) : M unit :=
  fun st => (Normal tt, mkState (warnings st ++ [text])%list (errors st) (console st)).

Definition push_error (text : string) : M unit :=
  fun st => (Normal tt, mkState (warnings st) (errors st ++ [text])%list (console st)).

Definition get_warnings : M (list string) := fun st => (Normal (warnings st), st).
Definition get_errors : M (list string) := fun st => (Normal (errors st), st).

(** [list.forEach(f)] and [for (const x of list) { f(x) }]. *)
Fixpoint for_each {A : Type} (f : A -> M unit) (l : list A) : M unit :=
  match l with
  | [] => ret tt
  | x :: rest => f x ;; for_each f rest
  end.

(** [list.filter(p)] for a predicate that may throw. *)
Fixpoint filter_throwing {A : Type} (p : A -> JSError + bool) (l : list A)
  : JSError + list A :=
  match l with
  | [] => inr []
  | x :: rest =>
      match p x with
      | inl e => inl e
      | inr keep =>
          match filter_throwing p rest with
          | inl e => inl e
          | inr kept => inr (if keep then x :: kept else kept)
          end
      end
  end.

(** [new PackageFreshnessChecker()], with nothing printed yet. *)
Definition constructor : State := mkState [] [] [].

(* ===================================================================== *)
(** ** Configuration and the outside world *)
(* ===================================================================== *)

Record Config : Type := mkConfig {
  MAJOR_VERSION_THRESHOLD : N;
  MINOR_VERSION_THRESHOLD : N;
  PATCH_VERSION_THRESHOLD : N;
  SECURITY_VULNERABILITY_THRESHOLD : N;
  NETWORK_TIMEOUT : N;
  ALLOW_NETWORK_FAILURE : bool;
  VERBOSE : bool
}.

(** The shipped [CONFIG]; [VERBOSE] is [process.env.CI !== 'true']. *)
Definition CONFIG (env_CI : option string) : Config :=
  {| MAJOR_VERSION_THRESHOLD := 365%N;
     MINOR_VERSION_THRESHOLD := 180%N;
     PATCH_VERSION_THRESHOLD := 90%N;
     SECURITY_VULNERABILITY_THRESHOLD := 7%N;
     NETWORK_TIMEOUT := 10000%N;
     ALLOW_NETWORK_FAILURE := true;
     VERBOSE := negb match env_CI with
                     | Some v => String.eqb v "true"
                     | None => false
                     end |}.

(** The text a command wrote to its standard output, as far as the checker
    looks at it: whether [trim()] leaves nothing, and what [JSON.parse]
    makes of it. *)
Inductive Output : Type :=
| Blank
| Malformed (e : JSError)
| Json (v : JSValue).

(** [execSync(command, {timeout})] either throws (the timeout expired, the
    shell could not be started, the command failed) or returns the output. *)
Inductive ExecOutcome : Type :=
| ExecThrows (e : JSError)
| ExecReturns (out : Output).

Definition execSync (o : ExecOutcome) : M Output :=
  match o with
  | ExecThrows e => throw e
  | ExecReturns out => ret out
  end.

(** [!result.trim()]. *)
Definition trim_is_empty (out : Output) : bool :=
  match out with
  | Blank => true
  | _ => false
  end.

Definition JSON_parse (out : Output) : JSError + JSValue :=
  match out with
  | Blank => inl (SyntaxError "Unexpected end of JSON input")
  | Malformed e => inl e
  | Json v => inr v
  end.

(* ===================================================================== *)
(** ** class PackageFreshnessChecker *)
(* ===================================================================== *)

Inductive LogType : Type := type_info | type_warn | type_error.

Definition is_error (type : LogType) : bool :=
  match type with
  | type_error => true
  | _ => false
  end.

Definition log (cfg : Config) (message : string) (type : LogType) : M unit :=
  if VERBOSE cfg || is_error type then
    let prefix := match type with
                  | type_error => "❌"
                  | type_warn => "⚠️"
                  | type_info => "ℹ️"
                  end in
    console_log (prefix ++ " " ++ message)
  else ret tt.

(** [fs.existsSync(this.packageJsonPath)] is the input [package_json]. *)
Definition checkPackageExists (cfg : Config) (package_json : bool) : M bool :=
  if negb package_json then
    log cfg "No package.json found, skipping package freshness check" type_warn ;;
    ret false
  else ret true.

Definition getOutdatedPackages (cfg : Config) (npm_outdated : ExecOutcome)
  : M JSValue :=
  try_catch
    (log cfg "Checking for outdated packages..." type_info ;;
     result <- execSync npm_outdated ;;
     if trim_is_empty result then
       log cfg "All packages are up to date! ✅" type_info ;;
       ret (JObject [])
     else lift (JSON_parse result))
    (fun error =>
       if ALLOW_NETWORK_FAILURE cfg then
         log cfg "Network timeout or registry unavailable - allowing commit" type_warn ;;
         ret (JObject [])
       else
         throw (Error ("Failed to check package versions: " ++ message error))).

(** *** The version comparator *)

Record ParsedVersion : Type := mkVersion {
  major : N;
  minor : N;
  patch : N
}.

Definition is_digit (c : ascii) : bool :=
  (48 <=? nat_of_ascii c)%nat && (nat_of_ascii c <=? 57)%nat.

(** [(\d+)] at the head of [s]: the longest run of digits and what follows
    it.  The group is greedy and is followed in the pattern by a literal
    dot or by the end of the pattern, so no shorter run is ever tried with
    success where the longest fails. *)
Fixpoint span_digits (s : string) : string * string :=
  match s with
  | EmptyString => (EmptyString, EmptyString)
  | String c rest =>
      if is_digit c then
        let (run, after) := span_digits rest in (String c run, after)
      else (EmptyString, s)
  end.

Definition is_empty (s : string) : bool :=
  match s with
  | EmptyString => true
  | _ => false
  end.

(** A literal [\.] at the head of [s]. *)
Definition skip_dot (s : string) : option string :=
  match s with
  | String c rest => if Ascii.eqb c "."%char then Some rest else None
  | EmptyString => None
  end.

(** [version.match(/^(\d+)\.(\d+)\.(\d+)/)]: the three captured groups. *)
Definition match_version (s : string) : option (string * string * string) :=
  let (g1, r1) := span_digits s in
  if is_empty g1 then None else
  match skip_dot r1 with
  | None => None
  | Some r1' =>
      let (g2, r2) := span_digits r1' in
      if is_empty g2 then None else
      match skip_dot r2 with
      | None => None
      | Some r2' =>
          let (g3, _) := span_digits r2' in
          if is_empty g3 then None else Some (g1, g2, g3)
      end
  end.

Definition digit_value (c : ascii) : N := N.of_nat (nat_of_ascii c - 48).

(** The integer that a run of digits denotes. *)
Fixpoint parseInt_from (acc : N) (digits : string) : N :=
  match digits with
  | EmptyString => acc
  | String c rest => parseInt_from (10 * acc + digit_value c)%N rest
  end.

(** An integer of more than 53 bits rounded to 53 significant bits, to the
    nearest and to the even one of two that are as near. *)
Definition round_to_double (n : N) : N :=
  let shift := (N.size n - 53)%N in
  let kept := N.shiftr n shift in
  let rest := (n - N.shiftl kept shift)%N in
  let half := N.shiftl 1 (shift - 1) in
  let up := (half <? rest)%N || ((rest =? half)%N && N.odd kept) in
  N.shiftl (if up then kept + 1 else kept)%N shift.

(** [Infinity] among the numbers of the versions.  The checker only
    compares these numbers, with [>]; 2^1024 lies above every double, as
    [Infinity] does, and is as large as itself. *)
Definition Infinity : N := (2 ^ 1024)%N.

(** The Number value of a non-negative integer: the integer itself up to
    53 bits, the nearest double beyond, [Infinity] when that would be
    2^1024.  (ECMAScript lets [parseInt] replace the digits after the
    twentieth by zeros before it rounds; here the integer itself is
    rounded.) *)
Definition Number_value (n : N) : N :=
  if (N.size n <=? 53)%N then n
  else if (N.size (round_to_double n) <=? 1024)%N then round_to_double n
  else Infinity.

(** [parseInt] of a captured group, which holds digits only. *)
Definition parseInt (digits : string) : N := Number_value (parseInt_from 0%N digits).

(** [version.match] exists on strings only: on [undefined] and [null] the
    member access throws, on every other value the call does. *)
Definition parseVersion (version : JSValue) : JSError + option ParsedVersion :=
  match version with
  | JString s =>
      match match_version s with
      | None => inr None
      | Some (g1, g2, g3) =>
          inr (Some (mkVersion (parseInt g1) (parseInt g2) (parseInt g3)))
      end
  | JUndefined =>
      inl (TypeError "Cannot read properties of undefined (reading 'match')")
  | JNull =>
      inl (TypeError "Cannot read properties of null (reading 'match')")
  | _ => inl (TypeError "version.match is not a function")
  end.

Inductive VersionDelta : Type :=
| delta_major
| delta_minor
| delta_patch
| delta_none
| delta_unknown.

(** The string the source uses for each delta. *)
Definition delta_name (d : VersionDelta) : string :=
  match d with
  | delta_major => "major"
  | delta_minor => "minor"
  | delta_patch => "patch"
  | delta_none => "none"
  | delta_unknown => "unknown"
  end.

Definition compare_versions (curr lat : ParsedVersion) : VersionDelta :=
  if (major curr <? major lat)%N then delta_major
  else if (minor curr <? minor lat)%N then delta_minor
  else if (patch curr <? patch lat)%N then delta_patch
  else delta_none.

Definition getVersionDifference (current latest : JSValue)
  : JSError + VersionDelta :=
  match parseVersion current with
  | inl e => inl e
  | inr curr =>
      match parseVersion latest with
      | inl e => inl e
      | inr lat =>
          match curr, lat with
          | Some c, Some l => inr (compare_versions c l)
          | _, _ => inr delta_unknown
          end
      end
  end.

(** *** The vulnerability check *)

(** The callback [vuln => ['high', 'critical'].includes(vuln.severity)]. *)
Definition is_high_severity (vuln : JSValue) : JSError + bool :=
  match get vuln "severity" with
  | inl e => inl e
  | inr severity => inr (is_string severity "high" || is_string severity "critical")
  end.

Definition checkSecurityVulnerabilities (cfg : Config) (npm_audit : ExecOutcome)
  : M unit :=
  try_catch
    (log cfg "Checking for security vulnerabilities..." type_info ;;
     auditResult <- execSync npm_audit ;;
     audit <- lift (JSON_parse auditResult) ;;
     vulnerabilities <- lift (get audit "vulnerabilities") ;;
     if truthy vulnerabilities then
       keys <- lift (own_properties vulnerabilities) ;;
       if (0 <? length keys)%nat then
         values <- lift (own_properties vulnerabilities) ;;
         highSeverity <- lift (filter_throwing is_high_severity (map snd values)) ;;
         if (0 <? length highSeverity)%nat then
           push_error ("🔒 " ++ string_of_nat (length highSeverity)
                       ++ " high/critical security vulnerabilities found! Run 'npm audit fix' before committing.")
         else ret tt
       else ret tt
     else ret tt)
    (fun error =>
       if negb (ALLOW_NETWORK_FAILURE cfg) then
         push_warning "Could not check security vulnerabilities"
       else ret tt).

(** *** The freshness analysis *)

(** The text of a version inside the message template.  The template is
    reached only after [getVersionDifference] has returned, that is, when
    both versions are strings (lemma [getVersionDifference_strings]). *)
Definition version_text (v : JSValue) : string :=
  match v with
  | JString s => s
  | _ => EmptyString
  end.

Definition analyze_entry (cfg : Config) (entry : string * JSValue) : M unit :=
  let (packageName, info) := entry in
  current <- lift (get info "current") ;;
  latest <- lift (get info "latest") ;;
  versionDiff <- lift (getVersionDifference current latest) ;;
  let message := "  " ++ packageName ++ ": " ++ version_text current ++ " → "
                 ++ version_text latest ++ " (" ++ delta_name versionDiff ++ ")" in
  match versionDiff with
  | delta_major => push_warning ("📦 Major version available: " ++ message)
  | delta_minor => push_warning ("📦 Minor version available: " ++ message)
  | delta_patch =>
      push_error ("🔧 Patch version available: " ++ message ++ " - Consider updating soon")
  | _ => ret tt
  end ;;
  log cfg message type_info.

Definition analyzeOutdatedPackages (cfg : Config) (outdated : JSValue) : M unit :=
  packageNames <- lift (own_properties outdated) ;;
  if (length packageNames =? 0)%nat then ret tt else
  log cfg ("Found " ++ string_of_nat (length packageNames) ++ " outdated packages:")
      type_info ;;
  entries <- lift (own_properties outdated) ;;
  for_each (analyze_entry cfg) entries.

(** *** The report and [run] *)

Definition newline : string := String (ascii_of_nat 10) EmptyString.

(** The reporting block of [run]: decides the exit code. *)
Definition report (cfg : Config) : M nat :=
  errs <- get_errors ;;
  if (0 <? length errs)%nat then
    console_log (newline ++ "🚫 Pre-commit check FAILED:") ;;
    for_each console_log errs ;;
    console_log (newline ++ "Please address these issues before committing.") ;;
    console_log ("Hint: Run " ++ dquote ++ "npm update" ++ dquote ++ " or " ++ dquote
                 ++ "npm audit fix" ++ dquote ++ " to resolve some issues.") ;;
    ret 1
  else
    warns <- get_warnings ;;
    (if (0 <? length warns)%nat then
       console_log (newline ++ "⚠️  Package freshness warnings:") ;;
       for_each console_log warns ;;
       console_log (newline ++ "Consider updating these packages when convenient.")
     else ret tt) ;;
    (if (length warns =? 0)%nat && (length errs =? 0)%nat then
       log cfg "Package freshness check passed! ✅" type_info
     else ret tt) ;;
    ret 0.

(** The body of the [try] block of [run].  Both queries are started, in
    this order, before either result is awaited. *)
Definition run_try (cfg : Config) (package_json : bool)
    (npm_outdated npm_audit : ExecOutcome) : M nat :=
  found <- checkPackageExists cfg package_json ;;
  if negb found then ret 0 else
  outdated_promise <- settled (getOutdatedPackages cfg npm_outdated) ;;
  audit_promise <- settled (checkSecurityVulnerabilities cfg npm_audit) ;;
  outdated <- await outdated_promise ;;
  await audit_promise ;;
  analyzeOutdatedPackages cfg outdated ;;
  report cfg.

(** The [catch] block of [run]. *)
Definition run_catch (cfg : Config) (error : JSError) : M nat :=
  console_error ("❌ Package freshness check failed: " ++ message error) ;;
  ret (if ALLOW_NETWORK_FAILURE cfg then 0 else 1).

Definition run (cfg : Config) (package_json : bool)
    (npm_outdated npm_audit : ExecOutcome) : M nat :=
  try_catch (run_try cfg package_json npm_outdated npm_audit) (run_catch cfg).

(** The script's entry point: a new checker, one [run], and the exit code
    handed to [process.exit]. *)
Definition main (cfg : Config) (package_json : bool)
    (npm_outdated npm_audit : ExecOutcome) : Completion nat * State :=
  run cfg package_json npm_outdated npm_audit constructor.


(* ===================================================================== *)
(** ** Vocabulary of the statements *)
(* ===================================================================== *)

(** *** Version strings *)

Fixpoint all_digits (s : string) : bool :=
  match s with
  | EmptyString => true
  | String c rest => is_digit c && all_digits rest
  end.

(** A non-empty run of decimal digits, what [\d+] matches in full. *)
Definition digit_run (s : string) : bool := negb (is_empty s) && all_digits s.

(** [s] does not go on with a digit: a run of digits that ends where [s]
    starts cannot be made longer. *)
Definition ends_run (s : string) : bool :=
  match s with
  | EmptyString => true
  | String c _ => negb (is_digit c)
  end.

(** The shape [major.minor.patch] followed by [suffix]. *)
Definition dotted (g1 g2 g3 suffix : string) : string :=
  g1 ++ "." ++ g2 ++ "." ++ g3 ++ suffix.

(** The delta [getVersionDifference] returns on two strings, where it
    never throws (lemma [getVersionDifference_version_delta]). *)
Definition version_delta (current latest : string) : VersionDelta :=
  match getVersionDifference (JString current) (JString latest) with
  | inr d => d
  | inl _ => delta_unknown
  end.

(** *** States *)

(** [extend st d]: the state [st] after the warnings, errors and lines of
    [d] have been appended to it. *)
Definition extend (st d : State) : State :=
  mkState (warnings st ++ warnings d)%list (errors st ++ errors d)%list
          (console st ++ console d)%list.

(** A computation that only ever appends to the state and never reads it:
    from any state it completes as it does from the freshly constructed
    one, and leaves behind the given state extended by what it leaves
    behind there. *)
Definition appends {A : Type} (m : M A) : Prop :=
  forall st, m st = (fst (m constructor), extend st (snd (m constructor))).

(** *** Outdated reports *)

(** The [current] and [latest] of an entry of the report, when the entry is
    an object that has both as strings. *)
Definition entry_versions (info : JSValue) : option (string * string) :=
  match info with
  | JObject props =>
      match lookup "current" props, lookup "latest" props with
      | JString c, JString l => Some (c, l)
      | _, _ => None
      end
  | _ => None
  end.

Definition well_formed_entry (entry : string * JSValue) : Prop :=
  entry_versions (snd entry) <> None.

(** The delta of a well-formed entry. *)
Definition entry_delta (entry : string * JSValue) : VersionDelta :=
  match entry_versions (snd entry) with
  | Some (c, l) => version_delta c l
  | None => delta_unknown
  end.

(** The line of an entry, [`  ${packageName}: ${current} → ${latest} (${delta})`]. *)
Definition entry_message (name current latest : string) : string :=
  "  " ++ name ++ ": " ++ current ++ " → " ++ latest
  ++ " (" ++ delta_name (version_delta current latest) ++ ")".

(** The freshness policy in the words of the specification: the severity
    of the finding each delta produces, if any. *)
Inductive Severity : Type := sev_info | sev_warning | sev_blocking.

Definition severity_eqb (a b : Severity) : bool :=
  match a, b with
  | sev_info, sev_info | sev_warning, sev_warning | sev_blocking, sev_blocking => true
  | _, _ => false
  end.

Definition spec_policy (d : VersionDelta) : option Severity :=
  match d with
  | delta_major => Some sev_warning
  | delta_minor => Some sev_warning
  | delta_patch => Some sev_blocking
  | delta_none | delta_unknown => None
  end.

Definition spec_text (d : VersionDelta) (line : string) : string :=
  match d with
  | delta_major => "📦 Major version available: " ++ line
  | delta_minor => "📦 Minor version available: " ++ line
  | delta_patch => "🔧 Patch version available: " ++ line ++ " - Consider updating soon"
  | delta_none | delta_unknown => EmptyString
  end.

(** The finding of one entry under the policy. *)
Definition spec_finding (entry : string * JSValue) : list (Severity * string) :=
  match entry_versions (snd entry) with
  | Some (c, l) =>
      match spec_policy (version_delta c l) with
      | Some sev => [(sev, spec_text (version_delta c l) (entry_message (fst entry) c l))]
      | None => []
      end
  | None => []
  end.

(** The findings of a report, in the order of its entries. *)
Definition spec_findings (props : list (string * JSValue)) : list (Severity * string) :=
  flat_map spec_finding props.

Definition with_severity (sev : Severity) (findings : list (Severity * string))
  : list string :=
  map snd (filter (fun f => severity_eqb (fst f) sev) findings).

(** What the analysis prints for a well-formed entry and for a report of
    well-formed entries, when [VERBOSE] is set. *)
Definition entry_line (entry : string * JSValue) : Line :=
  match entry_versions (snd entry) with
  | Some (c, l) => Stdout ("ℹ️ " ++ entry_message (fst entry) c l)
  | None => Stdout EmptyString
  end.

Definition analysis_lines (cfg : Config) (props : list (string * JSValue)) : list Line :=
  if VERBOSE cfg then
    match props with
    | [] => []
    | _ :: _ =>
        Stdout ("ℹ️ Found " ++ string_of_nat (length props) ++ " outdated packages:")
        :: map entry_line props
    end
  else [].

(** *** Audit reports *)

(** An entry of [audit.vulnerabilities] counts when its [severity] is the
    string [high] or the string [critical]. *)
Definition spec_counts (vuln : JSValue) : bool :=
  match vuln with
  | JObject props =>
      is_string (lookup "severity" props) "high"
      || is_string (lookup "severity" props) "critical"
  | _ => false
  end.

Definition spec_high_severity (entries : list (string * JSValue)) : list JSValue :=
  filter spec_counts (map snd entries).

Definition audit_message (n : nat) : string :=
  "🔒 " ++ string_of_nat n
  ++ " high/critical security vulnerabilities found! Run 'npm audit fix' before committing.".

(** The one finding the vulnerability check makes of [n] counted entries. *)
Definition audit_findings (n : nat) : list string :=
  if (0 <? n)%nat then [audit_message n] else [].

(** An entry on which reading [severity] does not throw. *)
Definition readable (vuln : JSValue) : bool :=
  match vuln with
  | JUndefined | JNull => false
  | _ => true
  end.

(** What [log] prints. *)
Definition log_lines (cfg : Config) (text : string) (type : LogType) : list Line :=
  if VERBOSE cfg || is_error type then
    [Stdout (match type with
             | type_error => "❌"
             | type_warn => "⚠️"
             | type_info => "ℹ️"
             end ++ " " ++ text)]
  else [].

(** *** Query failures *)

(** The outdated query failed: [execSync] threw, or the output is not
    blank and [JSON.parse] threw on it.  Blank output is the answer of a
    project with nothing outdated. *)
Definition outdated_failure (o : ExecOutcome) : option JSError :=
  match o with
  | ExecThrows e => Some e
  | ExecReturns (Malformed e) => Some e
  | ExecReturns Blank | ExecReturns (Json _) => None
  end.

(** The audit query failed: [execSync] threw, or [JSON.parse] threw on the
    output, blank output included. *)
Definition audit_failure (a : ExecOutcome) : bool :=
  match a with
  | ExecThrows _ | ExecReturns Blank | ExecReturns (Malformed _) => true
  | ExecReturns (Json _) => false
  end.

(** *** The blocks of the report *)

Definition failed_block (errs : list string) : list Line :=
  ([Stdout (newline ++ "🚫 Pre-commit check FAILED:")]
   ++ map Stdout errs
   ++ [Stdout (newline ++ "Please address these issues before committing.");
       Stdout ("Hint: Run " ++ dquote ++ "npm update" ++ dquote ++ " or " ++ dquote
               ++ "npm audit fix" ++ dquote ++ " to resolve some issues.")])%list.

Definition warnings_block (warns : list string) : list Line :=
  ([Stdout (newline ++ "⚠️  Package freshness warnings:")]
   ++ map Stdout warns
   ++ [Stdout (newline ++ "Consider updating these packages when convenient.")])%list.

Definition confirmation (cfg : Config) : list Line :=
  if VERBOSE cfg then [Stdout "ℹ️ Package freshness check passed! ✅"] else [].

(** The exit code and the lines of the report for given findings. *)
Definition verdict (cfg : Config) (warns errs : list string) : nat * list Line :=
  match errs, warns with
  | _ :: _, _ => (1, failed_block errs)
  | [], _ :: _ => (0, warnings_block warns)
  | [], [] => (0, confirmation cfg)
  end.

(** The line [run] prints when its [try] block has thrown. *)
Definition fatal_line (error : JSError) : Line :=
  Stderr ("❌ Package freshness check failed: " ++ message error).

(** *** The lines of a run *)








(** *** The exit code of a run *)

(** The exit code [run] hands out when [package.json] exists, from the
    completion of the outdated query and the errors found before the
    analysis. *)
Definition run_code (cfg : Config) (query : Completion JSValue)
    (errs : list string) : nat :=
  match query with
  | Throw _ => if ALLOW_NETWORK_FAILURE cfg then 0 else 1
  | Normal outdated =>
      match analyzeOutdatedPackages cfg outdated constructor with
      | (Throw _, _) => if ALLOW_NETWORK_FAILURE cfg then 0 else 1
      | (Normal _, d) => if (0 <? length (errs ++ errors d))%nat then 1 else 0
      end
  end.

(** *** Sample reports *)

(** An entry of [npm outdated --json]. *)
Definition outdated_entry (current latest : string) : JSValue :=
  JObject [("current", JString current); ("wanted", JString latest);
           ("latest", JString latest); ("location", JString "node_modules")].

(** An entry of the [vulnerabilities] of [npm audit --json]. *)
Definition vulnerability (severity : string) : JSValue :=
  JObject [("severity", JString severity); ("isDirect", JBool true)].

Definition audit_report (vulnerabilities : list (string * JSValue)) : JSValue :=
  JObject [("auditReportVersion", JNumber (Qmake 2 1));
           ("vulnerabilities", JObject vulnerabilities)].

(** The shipped configuration with [ALLOW_NETWORK_FAILURE] set to [false]. *)
Definition strict_config (env_CI : option string) : Config :=
  {| MAJOR_VERSION_THRESHOLD := MAJOR_VERSION_THRESHOLD (CONFIG env_CI);
     MINOR_VERSION_THRESHOLD := MINOR_VERSION_THRESHOLD (CONFIG env_CI);
     PATCH_VERSION_THRESHOLD := PATCH_VERSION_THRESHOLD (CONFIG env_CI);
     SECURITY_VULNERABILITY_THRESHOLD := SECURITY_VULNERABILITY_THRESHOLD (CONFIG env_CI);
     NETWORK_TIMEOUT := NETWORK_TIMEOUT (CONFIG env_CI);
     ALLOW_NETWORK_FAILURE := false;
     VERBOSE := VERBOSE (CONFIG env_CI) |}.

Definition timeout_error : JSError := Error "spawnSync /bin/sh ETIMEDOUT".

(** A report with a patch update and a major update, and one with a major
    and a minor update only. *)
Definition report_with_patch : list (string * JSValue) :=
  [("lodash", outdated_entry "4.17.20" "4.17.21");
   ("react", outdated_entry "17.0.2" "18.2.0")].

Definition report_major_minor : list (string * JSValue) :=
  [("react", outdated_entry "17.0.2" "18.2.0");
   ("eslint", outdated_entry "8.40.0" "8.57.0")].

Definition audit_critical_and_low : list (string * JSValue) :=
  [("minimist", vulnerability "critical"); ("debug", vulnerability "low")].

Definition audit_two_critical : list (string * JSValue) :=
  [("minimist", vulnerability "critical"); ("lodash", vulnerability "critical")].

(** A report in which one package is not installed: [npm outdated] gives
    such an entry no [current]. *)
Definition report_with_missing_package : list (string * JSValue) :=
  [("lodash", outdated_entry "4.17.20" "4.17.21");
   ("left-pad", JObject [("wanted", JString "1.3.0"); ("latest", JString "1.3.0")])].

(* ===================================================================== *)
(** ** Further vocabulary *)
(* ===================================================================== *)

From Stdlib Require Import DecimalN.

(** *** Versions *)

(** The canonical decimal numeral of a number, and the canonical string of
    a version. *)
Definition decimal (n : N) : string := NilZero.string_of_uint (N.to_uint n).

Definition render (v : ParsedVersion) : string :=
  decimal (major v) ++ "." ++ decimal (minor v) ++ "." ++ decimal (patch v).

(** The integers up to [Number.MAX_SAFE_INTEGER], 2^53 - 1: each of them is
    a JavaScript number, and so is every integer below it, so that the
    number [parseInt] returns on its numeral is the integer itself.  From
    2^53 + 1 on [parseInt] rounds. *)
Definition safe_integer (n : N) : bool := (n <? 2 ^ 53)%N.

(** The order of versions: by major, then minor, then patch. *)
Definition version_le (a b : ParsedVersion) : Prop :=
  (major a < major b)%N
  \/ (major a = major b
      /\ ((minor a < minor b)%N
          \/ (minor a = minor b /\ (patch a <= patch b)%N))).

(** The coarsest component in which two versions differ. *)
Definition coarsest_difference (a b : ParsedVersion) : VersionDelta :=
  if negb (major a =? major b)%N then delta_major
  else if negb (minor a =? minor b)%N then delta_minor
  else if negb (patch a =? patch b)%N then delta_patch
  else delta_none.

(** What [parseVersion] makes of a string, [None] when there is no match. *)
Definition parsed (s : string) : option ParsedVersion :=
  match parseVersion (JString s) with
  | inr r => r
  | inl _ => None
  end.

(** *** States *)

(** Two states with the same findings, whatever has been printed. *)
Definition same_findings (s1 s2 : State) : Prop :=
  warnings s1 = warnings s2 /\ errors s1 = errors s2.

(** Two computations that, from states with the same findings, complete
    alike and leave states with the same findings. *)
Definition agree {A : Type} (m1 m2 : M A) : Prop :=
  forall s1 s2,
    same_findings s1 s2 ->
    fst (m1 s1) = fst (m2 s2) /\ same_findings (snd (m1 s1)) (snd (m2 s2)).

Definition findings_count (st : State) : nat :=
  length (warnings st) + length (errors st).

(** The lines written with [console.error]. *)
Definition stderr_lines (lines : list Line) : list Line :=
  filter (fun line => match line with Stderr _ => true | Stdout _ => false end) lines.

(** *** Reports with nothing in them *)

(** The outdated query says that nothing is outdated: blank output, or a
    value without any entry. *)
Definition nothing_outdated (o : ExecOutcome) : Prop :=
  match o with
  | ExecReturns Blank => True
  | ExecReturns (Json v) => own_properties v = inr []
  | _ => False
  end.

(** The audit report lists no vulnerability: its [vulnerabilities] is
    absent or falsy, or has no entry. *)
Definition nothing_to_audit (a : ExecOutcome) : Prop :=
  match a with
  | ExecReturns (Json audit) =>
      match get audit "vulnerabilities" with
      | inr vulnerabilities =>
          truthy vulnerabilities = false \/ own_properties vulnerabilities = inr []
      | inl _ => False
      end
  | _ => False
  end.


Definition audit_with_null_entry : list (string * JSValue) :=
  [("minimist", vulnerability "critical"); ("broken", JNull)].

(* ===================================================================== *)
(** ** pre-commit-enhanced.sh *)
(* ===================================================================== *)

(** The hook script runs under [set -e].  What each command does is
    outside the script: its exit status is an input, a function of the
    command line.  The script's own lines are recorded in the order in
    which [echo] writes them; the output of the commands is not.  A
    script computation takes the lines written so far and returns them
    with [Some status] when the shell has exited and [None] when it goes
    on. *)
Module Hook.

Definition Sh : Type := (string -> N) -> list string -> list string * option N.

Definition echo (line : string) : Sh :=
  fun _ out => ((out ++ [line])%list, None).

(** A simple command under [set -e]: a non-zero status ends the shell
    with that status. *)
Definition exec (command : string) : Sh :=
  fun status out =>
    if (status command =? 0)%N then (out, None) else (out, Some (status command)).

Definition seq (a b : Sh) : Sh :=
  fun status out =>
    match a status out with
    | (out', None) => b status out'
    | (out', Some code) => (out', Some code)
    end.

Declare Scope sh_scope.
Delimit Scope sh_scope with sh.
Notation "a ;;; b" := (seq a b) (at level 62, right associativity) : sh_scope.

(** The script.  The package freshness step is commented out in the
    source and so is no part of it. *)
Definition script : Sh :=
  (echo "🔍 Running enhanced pre-commit checks..." ;;;
   echo "📝 Running lint-staged..." ;;;
   exec "npx lint-staged" ;;;
   echo "🧪 Running tests..." ;;;
   exec "npm run test:run" ;;;
   echo "🔍 Type checking..." ;;;
   exec "npm run type-check" ;;;
   echo "🔒 Security audit..." ;;;
   exec "npm audit --audit-level=high" ;;;
   echo "✅ All pre-commit checks passed!")%sh.

(** Running the script: the lines it wrote and its exit status; a script
    that reaches its end exits with the status of its last command, the
    final [echo]. *)
Definition pre_commit_enhanced (status : string -> N) : list string * N :=
  match script status [] with
  | (out, Some code) => (out, code)
  | (out, None) => (out, 0%N)
  end.

(** The four commands, in the order of the script. *)
Definition commands : list string :=
  ["npx lint-staged"; "npm run test:run"; "npm run type-check";
   "npm audit --audit-level=high"].

(** The first command of a list whose status is not zero. *)
Fixpoint first_failure (status : string -> N) (cmds : list string) : option string :=
  match cmds with
  | [] => None
  | c :: rest => if (status c =? 0)%N then first_failure status rest else Some c
  end.

(** The line that announces a command. *)
Definition announcement (command : string) : string :=
  if String.eqb command "npx lint-staged" then "📝 Running lint-staged..."
  else if String.eqb command "npm run test:run" then "🧪 Running tests..."
  else if String.eqb command "npm run type-check" then "🔍 Type checking..."
  else "🔒 Security audit...".

(** The commands of a list up to and including the first that satisfies [stop]. *)
Fixpoint through (stop : string -> bool) (cmds : list string) : list string :=
  match cmds with
  | [] => []
  | c :: rest => if stop c then [c] else c :: through stop rest
  end.

(** A status function for examples: every command succeeds but [failing],
    which exits with [code]. *)
Definition only_fails (failing : string) (code : N) : string -> N :=
  fun command => if String.eqb command failing then code else 0%N.

End Hook.

(* ===================================================================== *)
(** ** The project setup: what it does to package.json *)
(* ===================================================================== *)

(** [setupLintStaged] and [setupQualityScripts] of [AIDevProjectSetup]
    read [package.json], change the parsed value and write it back.  What
    [JSON.parse(fs.readFileSync(...))] gives (a thrown error or a value)
    and whether [fs.writeFileSync] throws are inputs.  A method returns
    the events it caused, in order, and its completion.  A file is written
    with [JSON.stringify(value, null, 2)]; the event records the value. *)
Module Setup.

Inductive Event : Type :=
| Logged (line : string)
| Wrote (path : string) (value : JSValue).

Definition S (A : Type) : Type := list Event * (JSError + A).

Definition ret {A : Type} (a : A) : S A := ([], inr a).

Definition throw {A : Type} (e : JSError) : S A := ([], inl e).

Definition bind {A B : Type} (m : S A) (k : A -> S B) : S B :=
  match m with
  | (events, inl e) => (events, inl e)
  | (events, inr a) => let (events', r) := k a in ((events ++ events')%list, r)
  end.

Definition lift {A : Type} (r : JSError + A) : S A := ([], r).

Inductive LogType : Type := info | success | warn | error.

(** [log(message, type = 'info')]: this class prints every message. *)
Definition log (message : string) (type : LogType) : S unit :=
  let prefix := match type with
                | error => "❌"
                | warn => "⚠️"
                | success => "✅"
                | info => "ℹ️"
                end in
  ([Logged (prefix ++ " " ++ message)], inr tt).

(** [fs.writeFileSync(path, JSON.stringify(value, null, 2))]. *)
Definition writeFileSync (path : string) (value : JSValue) (failure : option JSError)
  : S unit :=
  match failure with
  | Some e => throw e
  | None => ([Wrote path value], inr tt)
  end.

(** Defining the own property [name] of an object whose properties are
    listed in enumeration order, for a [name] that is no array index: an
    existing property keeps its place, a new one comes last. *)
Fixpoint set_prop (name : string) (value : JSValue) (props : list (string * JSValue))
  : list (string * JSValue) :=
  match props with
  | [] => [(name, value)]
  | (k, v) :: rest =>
      if String.eqb k name then (k, value) :: rest
      else (k, v) :: set_prop name value rest
  end.

(** The assignment [target[name] = value] in a class body, which is strict
    code, as far as [JSON.stringify] can tell afterwards.  On an object it
    defines the property.  On an array it defines a named property, which
    [JSON.stringify] leaves out.  On [null] and on a primitive it throws a
    TypeError (whose message, which quotes the value, is kept short here). *)
Definition assign (target : JSValue) (name : string) (value : JSValue)
  : JSError + JSValue :=
  match target with
  | JObject props => inr (JObject (set_prop name value props))
  | JArray items => inr (JArray items)
  | JUndefined =>
      inl (TypeError ("Cannot set properties of undefined (setting '" ++ name ++ "')"))
  | JNull =>
      inl (TypeError ("Cannot set properties of null (setting '" ++ name ++ "')"))
  | _ => inl (TypeError ("Cannot create property '" ++ name ++ "'"))
  end.

(** The properties an object spread [...value] copies: none of [undefined]
    and [null], the own enumerable ones otherwise. *)
Definition spread (value : JSValue) : list (string * JSValue) :=
  match own_properties value with
  | inr props => props
  | inl _ => []
  end.

(** The object literal [{ ...base, key1: value1, ... }] for keys that are
    no array indices. *)
Definition extend_object (base : list (string * JSValue))
    (more : list (string * JSValue)) : list (string * JSValue) :=
  fold_left (fun props kv => set_prop (fst kv) (snd kv) props) more base.

Definition package_json : string := "package.json".

Definition lint_staged_config : JSValue :=
  JObject [("*.{ts,tsx,js,jsx}", JArray [JString "eslint --fix"; JString "prettier --write"]);
           ("*.{json,md,css}", JArray [JString "prettier --write"])].

Definition setupLintStaged (read : JSError + JSValue) (write : option JSError) : S unit :=
  bind (log "Configuring lint-staged..." info) (fun _ =>
  bind (lift read) (fun packageJson =>
  bind (lift (get packageJson "lint-staged")) (fun configured =>
  if negb (truthy configured) then
    bind (lift (assign packageJson "lint-staged" lint_staged_config)) (fun packageJson' =>
    bind (writeFileSync package_json packageJson' write) (fun _ =>
    log "lint-staged configuration added to package.json" success))
  else log "lint-staged already configured" info))).

Definition qualityScripts : list (string * JSValue) :=
  [("quality",
    JString "npm run lint:check && npm run format:check && npm run type-check && npm run test:run");
   ("quality:fix", JString "npm run lint && npm run format && npm run test:run");
   ("outdated:check", JString "npm outdated");
   ("security:audit", JString "npm audit --audit-level=moderate")].

Definition setupQualityScripts (read : JSError + JSValue) (write : option JSError)
  : S unit :=
  bind (log "Adding quality scripts to package.json..." info) (fun _ =>
  bind (lift read) (fun packageJson =>
  bind (lift (get packageJson "scripts")) (fun scripts =>
  bind (lift (assign packageJson "scripts"
                (JObject (extend_object (spread scripts) qualityScripts))))
       (fun packageJson' =>
  bind (writeFileSync package_json packageJson' write) (fun _ =>
  log "Quality scripts added to package.json" success))))).

(** The values a method wrote to [package.json], in order. *)
Definition written (events : list Event) : list JSValue :=
  flat_map (fun event => match event with
                         | Wrote _ value => [value]
                         | Logged _ => []
                         end) events.

(** The own property [name], if there is one. *)
Fixpoint find (name : string) (props : list (string * JSValue)) : option JSValue :=
  match props with
  | [] => None
  | (k, v) :: rest => if String.eqb k name then Some v else find name rest
  end.

Definition is_quality_script (name : string) : bool :=
  existsb (fun kv => String.eqb (fst kv) name) qualityScripts.

(** What [setupQualityScripts] makes of the properties of package.json. *)
Definition with_quality_scripts (props : list (string * JSValue))
  : list (string * JSValue) :=
  set_prop "scripts"
    (JObject (extend_object (spread (lookup "scripts" props)) qualityScripts)) props.

(** A package.json for examples. *)
Definition sample_package : list (string * JSValue) :=
  [("name", JString "app");
   ("scripts", JObject [("test", JString "vitest"); ("quality", JString "echo old")]);
   ("private", JBool true)].

End Setup.

(* ===================================================================== *)
(** ** The version comparator: [parseVersion] and [getVersionDifference] *)
(* ===================================================================== *)

Lemma span_digits_app (run rest : string) :
  all_digits run = true -> ends_run rest = true ->
  span_digits (run ++ rest) = (run, rest).
Proof.
  induction run as [|c run IH]; simpl; intros Hrun Hrest.
  - destruct rest as [|c rest]; simpl in *; [reflexivity|].
    apply negb_true_iff in Hrest. now rewrite Hrest.
  - apply andb_true_iff in Hrun as [Hc Hrun].
    rewrite Hc, (IH Hrun Hrest). reflexivity.
Qed.

Lemma span_digits_inv (s run rest : string) :
  span_digits s = (run, rest) ->
  s = run ++ rest /\ all_digits run = true /\ ends_run rest = true.
Proof.
  revert run rest. induction s as [|c s IH]; simpl; intros run rest H.
  - inversion H; subst. repeat split.
  - destruct (is_digit c) eqn:Hc.
    + destruct (span_digits s) as [run' rest'] eqn:Hs.
      inversion H; subst. destruct (IH _ _ eq_refl) as (-> & Hd & He).
      simpl. rewrite Hc. repeat split; assumption.
    + inversion H; subst. simpl. rewrite Hc. repeat split.
Qed.

Lemma skip_dot_inv (s rest : string) :
  skip_dot s = Some rest -> s = "." ++ rest.
Proof.
  destruct s as [|c s]; simpl; [discriminate|].
  destruct (Ascii.eqb c ".") eqn:Hc; [|discriminate].
  apply Ascii.eqb_eq in Hc. intros H; inversion H; subst. reflexivity.
Qed.

Lemma is_empty_false_run (s : string) :
  all_digits s = true -> is_empty s = false -> digit_run s = true.
Proof. unfold digit_run. intros -> ->. reflexivity. Qed.

Lemma digit_run_inv (s : string) :
  digit_run s = true -> is_empty s = false /\ all_digits s = true.
Proof.
  unfold digit_run. intros H. apply andb_true_iff in H as [H1 H2].
  apply negb_true_iff in H1. split; assumption.
Qed.

(** The pattern matches exactly the strings of the dotted shape, and the
    groups it captures are the three runs themselves. *)
Lemma match_version_dotted (g1 g2 g3 suffix : string) :
  digit_run g1 = true -> digit_run g2 = true -> digit_run g3 = true ->
  ends_run suffix = true ->
  match_version (dotted g1 g2 g3 suffix) = Some (g1, g2, g3).
Proof.
  intros H1 H2 H3 Hs.
  apply digit_run_inv in H1 as [E1 D1], H2 as [E2 D2], H3 as [E3 D3].
  unfold match_version, dotted.
  rewrite (span_digits_app g1) by first [assumption | reflexivity].
  rewrite E1. simpl.
  rewrite (span_digits_app g2) by first [assumption | reflexivity].
  rewrite E2. simpl.
  rewrite (span_digits_app g3) by assumption.
  rewrite E3. reflexivity.
Qed.

Lemma match_version_inv (s g1 g2 g3 : string) :
  match_version s = Some (g1, g2, g3) ->
  exists suffix,
    s = dotted g1 g2 g3 suffix /\ digit_run g1 = true /\ digit_run g2 = true
    /\ digit_run g3 = true /\ ends_run suffix = true.
Proof.
  unfold match_version.
  destruct (span_digits s) as [a1 r1] eqn:S1.
  destruct (is_empty a1) eqn:E1; [discriminate|].
  destruct (skip_dot r1) as [r1'|] eqn:K1; [|discriminate].
  destruct (span_digits r1') as [a2 r2] eqn:S2.
  destruct (is_empty a2) eqn:E2; [discriminate|].
  destruct (skip_dot r2) as [r2'|] eqn:K2; [|discriminate].
  destruct (span_digits r2') as [a3 r3] eqn:S3.
  destruct (is_empty a3) eqn:E3; [discriminate|].
  intros H; inversion H; subst.
  apply span_digits_inv in S1 as (-> & D1 & _).
  apply span_digits_inv in S2 as (-> & D2 & _).
  apply span_digits_inv in S3 as (-> & D3 & Hs).
  apply skip_dot_inv in K1, K2. subst.
  exists r3. unfold dotted. repeat split;
    auto using is_empty_false_run.
Qed.

(** A string that does not start with a digit has no match: the pattern is
    anchored at the start and nothing before the first run is skipped. *)
Lemma match_version_no_leading_digit (c : ascii) (rest : string) :
  is_digit c = false -> match_version (String c rest) = None.
Proof. intros Hc. unfold match_version. simpl. rewrite Hc. reflexivity. Qed.

Lemma parseVersion_string_total (s : string) :
  exists r, parseVersion (JString s) = inr r.
Proof.
  simpl. destruct (match_version s) as [[[g1 g2] g3]|]; eauto.
Qed.

(** Unless both arguments are strings, [getVersionDifference] throws. *)
Lemma getVersionDifference_strings (current latest : JSValue) (d : VersionDelta) :
  getVersionDifference current latest = inr d ->
  exists c l, current = JString c /\ latest = JString l.
Proof.
  unfold getVersionDifference.
  destruct current; simpl; try discriminate;
    destruct latest; simpl; try discriminate;
    try (destruct (match_version _) as [[[? ?] ?]|]; discriminate).
  eauto.
Qed.

Lemma getVersionDifference_version_delta (current latest : string) :
  getVersionDifference (JString current) (JString latest)
  = inr (version_delta current latest).
Proof.
  unfold version_delta, getVersionDifference.
  destruct (parseVersion_string_total current) as [c ->].
  destruct (parseVersion_string_total latest) as [l ->].
  destruct c, l; reflexivity.
Qed.

Lemma version_delta_unparseable (current latest : string) :
  parseVersion (JString current) = inr None
  \/ parseVersion (JString latest) = inr None ->
  version_delta current latest = delta_unknown.
Proof.
  unfold version_delta, getVersionDifference. intros [H|H].
  - rewrite H. destruct (parseVersion_string_total latest) as [l ->]. reflexivity.
  - rewrite H. destruct (parseVersion_string_total current) as [c ->].
    destruct c; reflexivity.
Qed.



(** [parseInt_from] reads a run of digits as a decimal numeral: one more
    digit at the end multiplies by ten and adds the digit. *)
Lemma parseInt_from_snoc (acc : N) (digits : string) (c : ascii) :
  parseInt_from acc (digits ++ String c EmptyString)
  = (10 * parseInt_from acc digits + digit_value c)%N.
Proof.
  revert acc. induction digits as [|d digits IH]; intros acc; simpl.
  - reflexivity.
  - apply IH.
Qed.

(** An integer of at most 53 bits is its own Number value. *)
Lemma Number_value_small (n : N) : (n < 2 ^ 53)%N -> Number_value n = n.
Proof.
  intros Hn. unfold Number_value.
  destruct (N.leb_spec (N.size n) 53) as [_|Hsize]; [reflexivity|].
  exfalso. pose proof (N.size_le n) as Hle.
  assert (Hpow : (2 ^ 54 <= 2 ^ N.size n)%N) by (apply N.pow_le_mono_r; lia).
  rewrite N.succ_double_spec in Hle.
  change (2 ^ 54)%N with (2 * 2 ^ 53)%N in Hpow. lia.
Qed.

Example parseInt_leading_zero : parseInt "007" = 7%N.
Proof. reflexivity. Qed.

(** What [compare_versions] returns, case by case: each component of the
    latest version is compared with the same component of the current one,
    whatever the coarser components are. *)
Lemma compare_versions_cases (curr lat : ParsedVersion) :
  ((major curr < major lat)%N -> compare_versions curr lat = delta_major)
  /\ ((major lat <= major curr)%N -> (minor curr < minor lat)%N ->
      compare_versions curr lat = delta_minor)
  /\ ((major lat <= major curr)%N -> (minor lat <= minor curr)%N ->
      (patch curr < patch lat)%N -> compare_versions curr lat = delta_patch)
  /\ ((major lat <= major curr)%N -> (minor lat <= minor curr)%N ->
      (patch lat <= patch curr)%N -> compare_versions curr lat = delta_none).
Proof.
  unfold compare_versions.
  destruct (N.ltb_spec (major curr) (major lat));
    destruct (N.ltb_spec (minor curr) (minor lat));
    destruct (N.ltb_spec (patch curr) (patch lat));
    repeat split; intros; solve [reflexivity | lia].
Qed.

(** C6 (as amended): for every string, [parseVersion] returns without
    throwing; it returns the three numbers of a [major.minor.patch] run
    of digits exactly when the string starts with such a run, whatever
    follows the third number; a string that starts with anything but a
    digit (a range operator, a [v]) gives [null]. *)
Theorem parseVersion_leading_pattern :
  (forall s, exists r, parseVersion (JString s) = inr r)
  /\ (forall g1 g2 g3 suffix,
        digit_run g1 = true -> digit_run g2 = true -> digit_run g3 = true ->
        ends_run suffix = true ->
        parseVersion (JString (dotted g1 g2 g3 suffix))
        = inr (Some (mkVersion (parseInt g1) (parseInt g2) (parseInt g3))))
  /\ (forall s v,
        parseVersion (JString s) = inr (Some v) ->
        exists g1 g2 g3 suffix,
          s = dotted g1 g2 g3 suffix
          /\ digit_run g1 = true /\ digit_run g2 = true /\ digit_run g3 = true
          /\ ends_run suffix = true
          /\ v = mkVersion (parseInt g1) (parseInt g2) (parseInt g3))
  /\ (forall c rest,
        is_digit c = false -> parseVersion (JString (String c rest)) = inr None)
  /\ parseVersion (JString "1.2.3") = inr (Some (mkVersion 1 2 3))
  /\ parseVersion (JString "abc") = inr None.
Proof.
  split; [exact parseVersion_string_total|].
  split.
  { intros g1 g2 g3 suffix H1 H2 H3 Hs. simpl.
    now rewrite (match_version_dotted g1 g2 g3 suffix H1 H2 H3 Hs). }
  split.
  { intros s v. simpl.
    destruct (match_version s) as [[[g1 g2] g3]|] eqn:Hm; [|discriminate].
    intros H. inversion H; subst.
    destruct (match_version_inv _ _ _ _ Hm) as (suffix & Hs & H1 & H2 & H3 & He).
    exists g1, g2, g3, suffix. repeat split; assumption. }
  split.
  { intros c rest Hc. simpl.
    now rewrite (match_version_no_leading_digit c rest Hc). }
  split; reflexivity.
Qed.

Lemma parseVersion_leading_pattern_witness :
  parseVersion (JString "10.20.30-rc.1") = inr (Some (mkVersion 10 20 30))
  /\ parseVersion (JString "v1.2.3") = inr None.
Proof.
  split.
  - exact (proj1 (proj2 parseVersion_leading_pattern)
             "10" "20" "30" "-rc.1" eq_refl eq_refl eq_refl eq_refl).
  - exact (proj1 (proj2 (proj2 (proj2 parseVersion_leading_pattern)))
             "v"%char "1.2.3" eq_refl).
Defined.

(** C6 as stated fails: a prefix before the three numbers is not ignored.
    The caret of a range makes [parseVersion] return [null]. *)
Lemma parseVersion_prefix_not_ignored :
  parseVersion (JString "1.2.3") = inr (Some (mkVersion 1 2 3))
  /\ parseVersion (JString "^1.2.3") = inr None.
Proof. split; reflexivity. Qed.

(** C4 (the code at the failing inputs): when the current version is newer
    than the latest one in a coarser component, a finer component of the
    latest that exceeds the current one still gives [minor] or [patch],
    not [none]. *)
Theorem getVersionDifference_current_newer :
  getVersionDifference (JString "2.0.0") (JString "1.5.0") = inr delta_minor
  /\ getVersionDifference (JString "2.0.0") (JString "1.0.1") = inr delta_patch.
Proof. split; reflexivity. Qed.

(* ===================================================================== *)
(** ** Effects: what the methods do to the state *)
(* ===================================================================== *)

Lemma extend_constructor_l (d : State) : extend constructor d = d.
Proof. destruct d; reflexivity. Qed.

Lemma extend_constructor_r (st : State) : extend st constructor = st.
Proof. destruct st; unfold extend; simpl. now rewrite !app_nil_r. Qed.

Lemma extend_assoc (st d1 d2 : State) :
  extend (extend st d1) d2 = extend st (extend d1 d2).
Proof. unfold extend; simpl. now rewrite !app_assoc. Qed.

Lemma bind_Normal {A B : Type} (m : M A) (k : A -> M B) (st st1 : State) (a : A) :
  m st = (Normal a, st1) -> bind m k st = k a st1.
Proof. unfold bind. now intros ->. Qed.

Lemma bind_Throw {A B : Type} (m : M A) (k : A -> M B) (st st1 : State) (e : JSError) :
  m st = (Throw e, st1) -> bind m k st = (Throw e, st1).
Proof. unfold bind. now intros ->. Qed.

Lemma bind_settled {A B : Type} (m : M A) (k : Completion A -> M B) (st : State) :
  bind (settled m) k st = let (c, st1) := m st in k c st1.
Proof. unfold bind, settled. now destruct (m st). Qed.

Section Appends.

Context {A B : Type}.

Lemma appends_ret (a : A) : appends (ret a).
Proof. intros st. unfold ret; simpl. now rewrite extend_constructor_r. Qed.

Lemma appends_throw (e : JSError) : appends (@throw A e).
Proof. intros st. unfold throw; simpl. now rewrite extend_constructor_r. Qed.

Lemma appends_lift (r : JSError + A) : appends (lift r).
Proof. destruct r; [apply appends_throw | apply appends_ret]. Qed.

Lemma appends_await (c : Completion A) : appends (await c).
Proof. destruct c; [apply appends_ret | apply appends_throw]. Qed.

Lemma appends_bind (m : M A) (k : A -> M B) :
  appends m -> (forall a, appends (k a)) -> appends (bind m k).
Proof.
  intros Hm Hk st. unfold bind. rewrite (Hm st).
  destruct (m constructor) as [[a|e] d]; simpl.
  - rewrite (Hk a (extend st d)), (Hk a d). simpl.
    now rewrite extend_assoc.
  - reflexivity.
Qed.

Lemma appends_try_catch (body : M A) (handler : JSError -> M A) :
  appends body -> (forall e, appends (handler e)) -> appends (try_catch body handler).
Proof.
  intros Hb Hh st. unfold try_catch. rewrite (Hb st).
  destruct (body constructor) as [[a|e] d]; simpl.
  - reflexivity.
  - rewrite (Hh e (extend st d)), (Hh e d). simpl.
    now rewrite extend_assoc.
Qed.

Lemma appends_settled (m : M A) : appends m -> appends (settled m).
Proof.
  intros Hm st. unfold settled. rewrite (Hm st).
  destruct (m constructor) as [c d]; reflexivity.
Qed.

Lemma appends_if (b : bool) (m1 m2 : M A) :
  appends m1 -> appends m2 -> appends (if b then m1 else m2).
Proof. destruct b; auto. Qed.

End Appends.

Lemma appends_for_each {A : Type} (f : A -> M unit) (l : list A) :
  (forall x, appends (f x)) -> appends (for_each f l).
Proof.
  intros Hf. induction l as [|x l IH]; simpl.
  - apply appends_ret.
  - apply appends_bind; auto.
Qed.

Lemma appends_console_log (text : string) : appends (console_log text).
Proof.
  intros st. unfold console_log, extend; simpl. now rewrite !app_nil_r.
Qed.

Lemma appends_console_error (text : string) : appends (console_error text).
Proof.
  intros st. unfold console_error, extend; simpl. now rewrite !app_nil_r.
Qed.

Lemma appends_push_warning (text : string) : appends (push_warning text).
Proof.
  intros st. unfold push_warning, extend; simpl. now rewrite !app_nil_r.
Qed.

Lemma appends_push_error (text : string) : appends (push_error text).
Proof.
  intros st. unfold push_error, extend; simpl. now rewrite !app_nil_r.
Qed.

Lemma appends_log (cfg : Config) (text : string) (type : LogType) :
  appends (log cfg text type).
Proof.
  unfold log. apply appends_if; [apply appends_console_log | apply appends_ret].
Qed.

Lemma appends_execSync (o : ExecOutcome) : appends (execSync o).
Proof. destruct o; [apply appends_throw | apply appends_ret]. Qed.

Create HintDb appends.
#[local] Hint Resolve appends_ret appends_throw appends_lift appends_await
  appends_settled appends_console_log appends_console_error
  appends_push_warning appends_push_error appends_log appends_execSync : appends.

(** Goes through a method body: binds, handlers, branches and loops. *)
Ltac appends_step :=
  first
    [ apply appends_bind; [|intros ?]
    | apply appends_try_catch; [|intros ?]
    | apply appends_for_each; intros ?
    | apply appends_if
    | solve [auto with appends]
    | match goal with
      | |- appends (match ?x with _ => _ end) => destruct x
      end ].

Ltac appends_auto := repeat appends_step.

Lemma appends_checkPackageExists (cfg : Config) (package_json : bool) :
  appends (checkPackageExists cfg package_json).
Proof. unfold checkPackageExists. appends_auto. Qed.

Lemma appends_getOutdatedPackages (cfg : Config) (o : ExecOutcome) :
  appends (getOutdatedPackages cfg o).
Proof. unfold getOutdatedPackages. appends_auto. Qed.

Lemma appends_checkSecurityVulnerabilities (cfg : Config) (a : ExecOutcome) :
  appends (checkSecurityVulnerabilities cfg a).
Proof. unfold checkSecurityVulnerabilities. appends_auto. Qed.

Lemma appends_analyze_entry (cfg : Config) (entry : string * JSValue) :
  appends (analyze_entry cfg entry).
Proof. unfold analyze_entry. destruct entry. appends_auto. Qed.

Lemma appends_analyzeOutdatedPackages (cfg : Config) (outdated : JSValue) :
  appends (analyzeOutdatedPackages cfg outdated).
Proof.
  unfold analyzeOutdatedPackages. appends_auto. apply appends_analyze_entry.
Qed.

(* ===================================================================== *)
(** ** The freshness analysis *)
(* ===================================================================== *)

Lemma with_severity_app (sev : Severity) (f1 f2 : list (Severity * string)) :
  with_severity sev (f1 ++ f2) = (with_severity sev f1 ++ with_severity sev f2)%list.
Proof. unfold with_severity. now rewrite filter_app, map_app. Qed.

Lemma entry_versions_get (info : JSValue) (c l : string) :
  entry_versions info = Some (c, l) ->
  get info "current" = inr (JString c) /\ get info "latest" = inr (JString l).
Proof.
  destruct info as [| | | | |items|props]; simpl; try discriminate.
  destruct (lookup "current" props) as [| | | |c'| |]; try discriminate.
  destruct (lookup "latest" props) as [| | | |l'| |]; try discriminate.
  intros H; inversion H; subst. split; reflexivity.
Qed.

(** One entry, from the fresh state. *)
Lemma analyze_entry_well_formed (cfg : Config) (entry : string * JSValue) :
  well_formed_entry entry ->
  analyze_entry cfg entry constructor
  = (Normal tt,
     mkState (with_severity sev_warning (spec_finding entry))
             (with_severity sev_blocking (spec_finding entry))
             (if VERBOSE cfg then [entry_line entry] else [])).
Proof.
  destruct entry as [name info].
  unfold well_formed_entry, spec_finding, entry_line. cbn [fst snd].
  destruct (entry_versions info) as [[c l]|] eqn:Hv; [intros _|congruence].
  destruct (entry_versions_get info c l Hv) as [Hc Hl].
  unfold analyze_entry. rewrite Hc, Hl. unfold bind, lift, ret.
  rewrite getVersionDifference_version_delta.
  unfold entry_message, log.
  destruct (version_delta c l); destruct (VERBOSE cfg); reflexivity.
Qed.

Lemma for_each_analyze_entry (cfg : Config) (props : list (string * JSValue)) :
  Forall well_formed_entry props ->
  for_each (analyze_entry cfg) props constructor
  = (Normal tt,
     mkState (with_severity sev_warning (spec_findings props))
             (with_severity sev_blocking (spec_findings props))
             (if VERBOSE cfg then map entry_line props else [])).
Proof.
  induction 1 as [|entry props Hentry Hprops IH]; simpl.
  - now destruct (VERBOSE cfg).
  - rewrite (bind_Normal _ _ _ _ _ (analyze_entry_well_formed cfg entry Hentry)).
    rewrite (appends_for_each (analyze_entry cfg) props (appends_analyze_entry cfg)).
    rewrite IH. unfold spec_findings; simpl flat_map. fold (spec_findings props).
    rewrite !with_severity_app. unfold extend; simpl.
    now destruct (VERBOSE cfg).
Qed.

(** The whole analysis of a report of well-formed entries, from the fresh
    state: it does not throw, and it leaves the findings of the policy. *)
Lemma analyzeOutdatedPackages_fresh (cfg : Config) (props : list (string * JSValue)) :
  Forall well_formed_entry props ->
  analyzeOutdatedPackages cfg (JObject props) constructor
  = (Normal tt,
     mkState (with_severity sev_warning (spec_findings props))
             (with_severity sev_blocking (spec_findings props))
             (analysis_lines cfg props)).
Proof.
  intros Hwf. unfold analyzeOutdatedPackages, analysis_lines.
  destruct props as [|entry props].
  - simpl. now destruct (VERBOSE cfg).
  - rewrite (bind_Normal _ _ constructor constructor (entry :: props)) by reflexivity.
    change (length (entry :: props) =? 0)%nat with false. cbv iota.
    rewrite (bind_Normal _ _ constructor
               (mkState [] []
                  (if VERBOSE cfg
                   then [Stdout ("ℹ️ Found " ++ string_of_nat (length (entry :: props))
                                 ++ " outdated packages:")]
                   else [])) tt)
      by (unfold log; destruct (VERBOSE cfg); reflexivity).
    rewrite (bind_Normal _ _ _ _ (entry :: props) eq_refl).
    rewrite (appends_for_each (analyze_entry cfg) _ (appends_analyze_entry cfg)).
    rewrite (for_each_analyze_entry cfg _ Hwf).
    unfold extend; simpl. now destruct (VERBOSE cfg).
Qed.

(** C2: for every report whose entries carry a current and a latest
    version string, the analysis completes and appends to the warnings and
    to the errors the findings of the policy, in the order of the entries:
    a warning for a major or a minor delta, an error (a blocking finding)
    for a patch delta, nothing for none and unknown. *)
Theorem analyzeOutdatedPackages_policy (cfg : Config)
    (props : list (string * JSValue)) (st : State) :
  Forall well_formed_entry props ->
  exists st',
    analyzeOutdatedPackages cfg (JObject props) st = (Normal tt, st')
    /\ warnings st' = (warnings st ++ with_severity sev_warning (spec_findings props))%list
    /\ errors st' = (errors st ++ with_severity sev_blocking (spec_findings props))%list
    /\ console st' = (console st ++ analysis_lines cfg props)%list.
Proof.
  intros Hwf. rewrite (appends_analyzeOutdatedPackages cfg (JObject props) st).
  rewrite (analyzeOutdatedPackages_fresh cfg props Hwf). simpl.
  eexists. split; [reflexivity|]. repeat split.
Qed.

(** Outside the well-formed reports: an entry that does not carry both
    versions as strings makes the analysis throw at that entry. *)
Lemma analyze_entry_not_well_formed (cfg : Config) (name : string) (info : JSValue)
    (st : State) :
  entry_versions info = None ->
  exists e, analyze_entry cfg (name, info) st = (Throw e, st).
Proof.
  intros Hv. unfold analyze_entry.
  destruct info as [| |b|x|s|items|props];
    try (eexists; reflexivity).
  simpl in Hv. unfold bind, lift, get, getVersionDifference.
  destruct (lookup "current" props) as [| |b|x|c|items|props'];
    try (eexists; reflexivity).
  destruct (parseVersion_string_total c) as [r Hr].
  unfold throw, ret at 1 2. rewrite Hr.
  destruct (lookup "latest" props) as [| |b|x|l|items|props'];
    try (eexists; reflexivity).
  discriminate.
Qed.

(* ===================================================================== *)
(** ** The vulnerability check *)
(* ===================================================================== *)

Lemma log_fresh (cfg : Config) (text : string) (type : LogType) :
  log cfg text type constructor = (Normal tt, mkState [] [] (log_lines cfg text type)).
Proof.
  unfold log, log_lines. destruct (VERBOSE cfg || is_error type); reflexivity.
Qed.

Lemma is_high_severity_readable (vuln : JSValue) :
  readable vuln = true -> is_high_severity vuln = inr (spec_counts vuln).
Proof. destruct vuln; simpl; intros H; try discriminate; reflexivity. Qed.

(** The filter keeps exactly the entries that count, in their order. *)
Lemma filter_throwing_readable (values : list JSValue) :
  Forall (fun v => readable v = true) values ->
  filter_throwing is_high_severity values = inr (filter spec_counts values).
Proof.
  induction 1 as [|v values Hv _ IH]; simpl; [reflexivity|].
  rewrite (is_high_severity_readable v Hv), IH. reflexivity.
Qed.

(** Whatever the audit query brings, the check completes normally: its
    own handler takes every error thrown in its body. *)
Lemma checkSecurityVulnerabilities_catches (cfg : Config) (a : ExecOutcome) (st : State) :
  fst (checkSecurityVulnerabilities cfg a st) = Normal tt.
Proof.
  unfold checkSecurityVulnerabilities, try_catch.
  match goal with |- context [match ?b st with _ => _ end] => destruct (b st) as [[[]|e] st'] end.
  - reflexivity.
  - destruct (ALLOW_NETWORK_FAILURE cfg); reflexivity.
Qed.

(** The check never touches the console beyond its first line, never
    removes a finding, and on a failed query adds no error. *)
Lemma checkSecurityVulnerabilities_failure (cfg : Config) (a : ExecOutcome) :
  audit_failure a = true ->
  checkSecurityVulnerabilities cfg a constructor
  = (Normal tt,
     mkState (if ALLOW_NETWORK_FAILURE cfg then []
              else ["Could not check security vulnerabilities"])
             []
             (log_lines cfg "Checking for security vulnerabilities..." type_info)).
Proof.
  intros Ha. unfold checkSecurityVulnerabilities, try_catch.
  rewrite (bind_Normal _ _ _ _ _ (log_fresh cfg _ _)).
  destruct a as [e|[|e|v]]; try discriminate; unfold bind; simpl;
    destruct (ALLOW_NETWORK_FAILURE cfg); reflexivity.
Qed.

Lemma checkSecurityVulnerabilities_fresh (cfg : Config)
    (audit_props entries : list (string * JSValue)) :
  lookup "vulnerabilities" audit_props = JObject entries ->
  Forall (fun entry => readable (snd entry) = true) entries ->
  checkSecurityVulnerabilities cfg (ExecReturns (Json (JObject audit_props))) constructor
  = (Normal tt,
     mkState [] (audit_findings (length (spec_high_severity entries)))
             (log_lines cfg "Checking for security vulnerabilities..." type_info)).
Proof.
  intros Hlookup Hread. unfold checkSecurityVulnerabilities, try_catch.
  rewrite (bind_Normal _ _ _ _ _ (log_fresh cfg _ _)).
  set (st1 := mkState [] [] (log_lines cfg _ type_info)).
  rewrite (bind_Normal _ _ st1 st1 (Json (JObject audit_props)) eq_refl).
  rewrite (bind_Normal _ _ st1 st1 (JObject audit_props) eq_refl).
  rewrite (bind_Normal _ _ st1 st1 (JObject entries))
    by (simpl; rewrite Hlookup; reflexivity).
  change (truthy (JObject entries)) with true. cbv iota.
  rewrite (bind_Normal _ _ st1 st1 entries eq_refl).
  destruct entries as [|entry entries]; [reflexivity|].
  change (0 <? length (entry :: entries))%nat with true. cbv iota.
  rewrite (bind_Normal _ _ st1 st1 (entry :: entries) eq_refl).
  assert (Hvalues : Forall (fun v => readable v = true) (map snd (entry :: entries)))
    by (apply Forall_map; exact Hread).
  rewrite (bind_Normal _ _ st1 st1 (spec_high_severity (entry :: entries)))
    by (rewrite (filter_throwing_readable _ Hvalues); reflexivity).
  unfold audit_findings, audit_message.
  destruct (0 <? length (spec_high_severity (entry :: entries)))%nat; reflexivity.
Qed.

(** C5 (as amended): for every audit report whose [vulnerabilities] is an
    object of entries that are not [null], the filter keeps exactly the
    entries whose severity is [high] or [critical]; the check adds one
    blocking finding in all, a message that carries their number, when
    there is at least one, and none when there is none; entries with
    another, an absent or a malformed severity are left out and nothing is
    thrown. *)
Theorem checkSecurityVulnerabilities_one_finding (cfg : Config)
    (audit_props entries : list (string * JSValue)) (st : State) :
  lookup "vulnerabilities" audit_props = JObject entries ->
  Forall (fun entry => readable (snd entry) = true) entries ->
  filter_throwing is_high_severity (map snd entries) = inr (spec_high_severity entries)
  /\ exists st',
       checkSecurityVulnerabilities cfg (ExecReturns (Json (JObject audit_props))) st
       = (Normal tt, st')
       /\ warnings st' = warnings st
       /\ errors st'
          = (errors st ++ audit_findings (length (spec_high_severity entries)))%list.
Proof.
  intros Hlookup Hread. split.
  - apply filter_throwing_readable, Forall_map. exact Hread.
  - rewrite (appends_checkSecurityVulnerabilities cfg _ st).
    rewrite (checkSecurityVulnerabilities_fresh cfg _ _ Hlookup Hread). simpl.
    eexists. split; [reflexivity|]. split; [apply app_nil_r | reflexivity].
Qed.

(* ===================================================================== *)
(** ** The outdated query, the report and [run] *)
(* ===================================================================== *)

Lemma getOutdatedPackages_json (cfg : Config) (v : JSValue) :
  getOutdatedPackages cfg (ExecReturns (Json v)) constructor
  = (Normal v,
     mkState [] [] (log_lines cfg "Checking for outdated packages..." type_info)).
Proof.
  unfold getOutdatedPackages, try_catch.
  rewrite (bind_Normal _ _ _ _ _ (log_fresh cfg _ _)). reflexivity.
Qed.

Lemma getOutdatedPackages_blank (cfg : Config) :
  getOutdatedPackages cfg (ExecReturns Blank) constructor
  = (Normal (JObject []),
     mkState [] []
       (log_lines cfg "Checking for outdated packages..." type_info
        ++ log_lines cfg "All packages are up to date! ✅" type_info)%list).
Proof.
  unfold getOutdatedPackages, try_catch.
  rewrite (bind_Normal _ _ _ _ _ (log_fresh cfg _ _)).
  unfold bind, log, log_lines; simpl. destruct (VERBOSE cfg); reflexivity.
Qed.

Lemma getOutdatedPackages_failure_allowed (cfg : Config) (o : ExecOutcome) (e : JSError) :
  outdated_failure o = Some e -> ALLOW_NETWORK_FAILURE cfg = true ->
  getOutdatedPackages cfg o constructor
  = (Normal (JObject []),
     mkState [] []
       (log_lines cfg "Checking for outdated packages..." type_info
        ++ log_lines cfg "Network timeout or registry unavailable - allowing commit"
                     type_warn)%list).
Proof.
  intros Ho Hallow. unfold getOutdatedPackages, try_catch.
  rewrite (bind_Normal _ _ _ _ _ (log_fresh cfg _ _)). rewrite Hallow.
  destruct o as [e'|[|e'|v]]; try discriminate;
    unfold bind, log, log_lines; simpl; destruct (VERBOSE cfg); reflexivity.
Qed.

Lemma getOutdatedPackages_failure_fatal (cfg : Config) (o : ExecOutcome) (e : JSError) :
  outdated_failure o = Some e -> ALLOW_NETWORK_FAILURE cfg = false ->
  getOutdatedPackages cfg o constructor
  = (Throw (Error ("Failed to check package versions: " ++ message e)),
     mkState [] [] (log_lines cfg "Checking for outdated packages..." type_info)).
Proof.
  intros Ho Hallow. unfold getOutdatedPackages, try_catch.
  rewrite (bind_Normal _ _ _ _ _ (log_fresh cfg _ _)). rewrite Hallow.
  destruct o as [e'|[|e'|v]]; try discriminate;
    inversion Ho; subst; reflexivity.
Qed.

(** With failures allowed the outdated query never throws. *)
Lemma getOutdatedPackages_allowed_total (cfg : Config) (o : ExecOutcome) (st : State) :
  ALLOW_NETWORK_FAILURE cfg = true ->
  exists v, fst (getOutdatedPackages cfg o st) = Normal v.
Proof.
  intros Hallow. rewrite (appends_getOutdatedPackages cfg o st). simpl.
  destruct (outdated_failure o) as [e|] eqn:Ho.
  - rewrite (getOutdatedPackages_failure_allowed cfg o e Ho Hallow). eexists; reflexivity.
  - destruct o as [e|[|e|v]]; try discriminate.
    + rewrite getOutdatedPackages_blank. eexists; reflexivity.
    + rewrite getOutdatedPackages_json. eexists; reflexivity.
Qed.

Lemma for_each_console_log (lines : list string) (st : State) :
  for_each console_log lines st
  = (Normal tt, mkState (warnings st) (errors st) (console st ++ map Stdout lines)%list).
Proof.
  revert st. induction lines as [|line lines IH]; intros st; simpl.
  - rewrite app_nil_r. now destruct st.
  - unfold bind, console_log at 1. rewrite IH. simpl.
    now rewrite <- app_assoc.
Qed.

(** The report: the exit code and the lines are those of [verdict]; the
    findings are left as they are. *)
Lemma report_verdict (cfg : Config) (st : State) :
  report cfg st
  = (Normal (fst (verdict cfg (warnings st) (errors st))),
     mkState (warnings st) (errors st)
             (console st ++ snd (verdict cfg (warnings st) (errors st)))%list).
Proof.
  unfold report, verdict.
  destruct st as [warns errs out]. cbn [warnings errors console].
  erewrite (bind_Normal get_errors) by reflexivity. cbn [errors].
  destruct errs as [|err errs].
  - change (0 <? length (@nil string))%nat with false. cbv iota.
    erewrite (bind_Normal get_warnings) by reflexivity. cbn [warnings].
    destruct warns as [|warn warns].
    + change (0 <? length (@nil string))%nat with false.
      change (length (@nil string) =? 0)%nat with true. cbv iota. simpl andb.
      cbv iota. unfold bind, ret, log, confirmation. simpl.
      destruct (VERBOSE cfg); simpl; [reflexivity | now rewrite app_nil_r].
    + change (0 <? length (warn :: warns))%nat with true.
      change (length (warn :: warns) =? 0)%nat with false. cbv iota. simpl andb.
      cbv iota.
      erewrite bind_Normal
        by (erewrite bind_Normal by reflexivity;
            erewrite bind_Normal by apply for_each_console_log;
            reflexivity).
      erewrite bind_Normal by reflexivity.
      unfold ret, warnings_block. simpl. now rewrite <- !app_assoc.
  - change (0 <? length (err :: errs))%nat with true. cbv iota.
    erewrite bind_Normal by reflexivity.
    erewrite bind_Normal by apply for_each_console_log.
    erewrite bind_Normal by reflexivity.
    erewrite bind_Normal by reflexivity.
    unfold ret, failed_block. simpl. now rewrite <- !app_assoc.
Qed.

Lemma verdict_code (cfg : Config) (warns errs : list string) :
  fst (verdict cfg warns errs) = if (0 <? length errs)%nat then 1 else 0.
Proof. destruct errs, warns; reflexivity. Qed.

(** [run]'s [try] block when there is no [package.json]. *)
Lemma run_try_no_package (cfg : Config) (o a : ExecOutcome) (st : State) :
  run_try cfg false o a st
  = (Normal 0,
     mkState (warnings st) (errors st)
       (console st
        ++ log_lines cfg "No package.json found, skipping package freshness check"
                     type_warn)%list).
Proof.
  unfold run_try, checkPackageExists, bind, log, log_lines, ret, console_log. simpl.
  destruct (VERBOSE cfg); simpl; [reflexivity|].
  rewrite app_nil_r. now destruct st.
Qed.

(** [run]'s [try] block stage by stage when [package.json] exists: the
    outdated query, then the vulnerability check in any case, and only
    when the query has not thrown the analysis and the report. *)
Lemma run_try_stages (cfg : Config) (o a : ExecOutcome) (st : State) :
  run_try cfg true o a st
  = let (r1, s1) := getOutdatedPackages cfg o st in
    let s2 := snd (checkSecurityVulnerabilities cfg a s1) in
    match r1 with
    | Throw e => (Throw e, s2)
    | Normal outdated =>
        let (r3, s3) := analyzeOutdatedPackages cfg outdated s2 in
        match r3 with
        | Throw e => (Throw e, s3)
        | Normal _ => report cfg s3
        end
    end.
Proof.
  unfold run_try.
  rewrite (bind_Normal (checkPackageExists cfg true) _ st st true eq_refl).
  change (negb true) with false. cbv iota.
  rewrite bind_settled. destruct (getOutdatedPackages cfg o st) as [r1 s1].
  rewrite bind_settled.
  pose proof (checkSecurityVulnerabilities_catches cfg a s1) as Hcatch.
  destruct (checkSecurityVulnerabilities cfg a s1) as [r2 s2].
  simpl in Hcatch. subst r2. simpl snd.
  destruct r1 as [outdated|e].
  - rewrite (bind_Normal (await (Normal outdated)) _ s2 s2 outdated eq_refl).
    rewrite (bind_Normal (await (Normal tt)) _ s2 s2 tt eq_refl).
    unfold bind.
    destruct (analyzeOutdatedPackages cfg outdated s2) as [[[]|e] s3]; reflexivity.
  - rewrite (bind_Throw (await (Throw e)) _ s2 s2 e eq_refl). reflexivity.
Qed.

(** The [try] block returns [0] or [1] whenever it returns. *)
Lemma run_try_code (cfg : Config) (package_json : bool) (o a : ExecOutcome)
    (st st' : State) (code : nat) :
  run_try cfg package_json o a st = (Normal code, st') ->
  code = 0 \/ (code = 1 /\ errors st' <> []).
Proof.
  destruct package_json.
  - rewrite run_try_stages.
    destruct (getOutdatedPackages cfg o st) as [[outdated|e] s1]; [|discriminate].
    cbv zeta.
    destruct (analyzeOutdatedPackages cfg outdated
                (snd (checkSecurityVulnerabilities cfg a s1))) as [[[]|e] s3];
      [|discriminate].
    rewrite report_verdict. intros H; inversion H; subst; clear H. simpl.
    destruct (errors s3); simpl.
    + left. destruct (warnings s3); reflexivity.
    + right. split; [reflexivity | discriminate].
  - rewrite run_try_no_package. intros H; inversion H. now left.
Qed.

(** *** The paths of [run] *)

(** The queries leave the findings alone, except for the one finding the
    vulnerability check may add. *)
Lemma getOutdatedPackages_no_finding (cfg : Config) (o : ExecOutcome) :
  warnings (snd (getOutdatedPackages cfg o constructor)) = []
  /\ errors (snd (getOutdatedPackages cfg o constructor)) = [].
Proof.
  destruct (outdated_failure o) as [e|] eqn:Ho.
  - destruct (ALLOW_NETWORK_FAILURE cfg) eqn:Hallow.
    + rewrite (getOutdatedPackages_failure_allowed cfg o e Ho Hallow). now split.
    + rewrite (getOutdatedPackages_failure_fatal cfg o e Ho Hallow). now split.
  - destruct o as [e|[|e|v]]; try discriminate.
    + rewrite getOutdatedPackages_blank. now split.
    + rewrite getOutdatedPackages_json. now split.
Qed.

(** The state in which the analysis starts: the state of the call, then
    what the outdated query and the vulnerability check have appended. *)
Lemma run_try_from_fresh (cfg : Config) (o a : ExecOutcome) (st : State) :
  run_try cfg true o a st
  = let s2 := extend (extend st (snd (getOutdatedPackages cfg o constructor)))
                     (snd (checkSecurityVulnerabilities cfg a constructor)) in
    match fst (getOutdatedPackages cfg o constructor) with
    | Throw e => (Throw e, s2)
    | Normal outdated =>
        match fst (analyzeOutdatedPackages cfg outdated constructor) with
        | Throw e =>
            (Throw e, extend s2 (snd (analyzeOutdatedPackages cfg outdated constructor)))
        | Normal _ =>
            report cfg (extend s2 (snd (analyzeOutdatedPackages cfg outdated constructor)))
        end
    end.
Proof.
  rewrite run_try_stages.
  rewrite (appends_getOutdatedPackages cfg o st).
  rewrite (appends_checkSecurityVulnerabilities cfg a). simpl snd. cbv zeta.
  destruct (fst (getOutdatedPackages cfg o constructor)) as [outdated|e]; [|reflexivity].
  rewrite (appends_analyzeOutdatedPackages cfg outdated).
  destruct (fst (analyzeOutdatedPackages cfg outdated constructor)); reflexivity.
Qed.

(** [run] returns an exit code, [0] or [1], from every state and for
    every outcome of the two queries. *)
Lemma run_total (cfg : Config) (package_json : bool) (o a : ExecOutcome) (st : State) :
  exists code st',
    run cfg package_json o a st = (Normal code, st') /\ (code = 0 \/ code = 1).
Proof.
  unfold run, try_catch.
  destruct (run_try cfg package_json o a st) as [[code|e] s] eqn:Htry.
  - exists code, s. split; [reflexivity|].
    destruct (run_try_code _ _ _ _ _ _ _ Htry) as [H|[H _]]; auto.
  - unfold run_catch, bind, console_error, ret. simpl.
    eexists _, _. split; [reflexivity|].
    destruct (ALLOW_NETWORK_FAILURE cfg); auto.
Qed.

Lemma report_exit_1 (cfg : Config) (st st' : State) :
  report cfg st = (Normal 1, st') ->
  errors st' <> [] /\ console st' = (console st ++ failed_block (errors st'))%list.
Proof.
  rewrite report_verdict. unfold verdict.
  destruct (errors st) as [|err errs] eqn:He.
  - destruct (warnings st); discriminate.
  - intros H; inversion H; subst; clear H. cbn [errors console snd].
    split; [discriminate | reflexivity].
Qed.

(** How [run] can return [1]: through the report, with a blocking finding
    and the FAILED block as the last thing printed, or through its handler
    when failures are not allowed, with the fatal line as the last one. *)
Lemma run_exit_1 (cfg : Config) (package_json : bool) (o a : ExecOutcome)
    (st st' : State) :
  run cfg package_json o a st = (Normal 1, st') ->
  (errors st' <> []
   /\ exists before, console st' = (before ++ failed_block (errors st'))%list)
  \/ (ALLOW_NETWORK_FAILURE cfg = false
      /\ exists before e, console st' = (before ++ [fatal_line e])%list).
Proof.
  unfold run, try_catch.
  destruct (run_try cfg package_json o a st) as [[code|e] s] eqn:Htry.
  - intros H; inversion H; subst; clear H. left.
    destruct package_json.
    + rewrite run_try_stages in Htry.
      destruct (getOutdatedPackages cfg o st) as [[outdated|e] s1]; [|discriminate].
      cbv zeta in Htry.
      destruct (analyzeOutdatedPackages cfg outdated
                  (snd (checkSecurityVulnerabilities cfg a s1))) as [[[]|e] s3];
        [|discriminate].
      destruct (report_exit_1 cfg s3 st' Htry) as [Herr Hout].
      split; [exact Herr|]. exists (console s3). exact Hout.
    + rewrite run_try_no_package in Htry. discriminate.
  - unfold run_catch, bind, console_error, ret. simpl.
    destruct (ALLOW_NETWORK_FAILURE cfg); intros H; inversion H; subst; clear H.
    right. split; [reflexivity|]. eexists _, e. reflexivity.
Qed.

(** The exit code of a run as a function of what the stages bring. *)
Lemma run_code_spec (cfg : Config) (o a : ExecOutcome) (st : State) :
  fst (run cfg true o a st)
  = Normal (run_code cfg (fst (getOutdatedPackages cfg o constructor))
              (errors st ++ errors (snd (checkSecurityVulnerabilities cfg a constructor)))).
Proof.
  unfold run, try_catch. rewrite run_try_from_fresh. cbv zeta. unfold run_code.
  destruct (getOutdatedPackages_no_finding cfg o) as [_ Hno].
  destruct (fst (getOutdatedPackages cfg o constructor)) as [outdated|e].
  - destruct (analyzeOutdatedPackages cfg outdated constructor) as [[[]|e] d]; simpl fst.
    + rewrite report_verdict. simpl fst. rewrite verdict_code.
      unfold extend; cbn [errors snd]. rewrite Hno, app_nil_r. reflexivity.
    + unfold run_catch, bind, console_error, ret. reflexivity.
  - unfold run_catch, bind, console_error, ret. reflexivity.
Qed.

(* ===================================================================== *)
(** ** The verdict *)
(* ===================================================================== *)

Lemma entry_delta_finding (entry : string * JSValue) :
  (entry_delta entry = delta_patch ->
   with_severity sev_blocking (spec_finding entry) <> [])
  /\ (entry_delta entry = delta_major \/ entry_delta entry = delta_minor ->
      with_severity sev_blocking (spec_finding entry) = []
      /\ with_severity sev_warning (spec_finding entry) <> []).
Proof.
  unfold entry_delta, spec_finding.
  destruct (entry_versions (snd entry)) as [[c l]|].
  - destruct (version_delta c l); simpl; split;
      solve [ discriminate
            | intros [H|H]; solve [discriminate | split; [reflexivity | discriminate]] ].
  - split; [discriminate | intros [H|H]; discriminate].
Qed.

Lemma patch_entry_blocks (props : list (string * JSValue)) :
  Exists (fun entry => entry_delta entry = delta_patch) props ->
  with_severity sev_blocking (spec_findings props) <> [].
Proof.
  unfold spec_findings.
  induction 1 as [entry props H|entry props _ IH]; simpl; rewrite with_severity_app.
  - apply (proj1 (entry_delta_finding entry)) in H.
    destruct (with_severity sev_blocking (spec_finding entry)); [congruence | discriminate].
  - intros Happ. apply app_eq_nil in Happ as [_ Happ]. contradiction.
Qed.

Lemma major_minor_entries_warn (props : list (string * JSValue)) :
  Forall (fun entry => entry_delta entry = delta_major \/ entry_delta entry = delta_minor)
         props ->
  with_severity sev_blocking (spec_findings props) = []
  /\ (props <> [] -> with_severity sev_warning (spec_findings props) <> []).
Proof.
  unfold spec_findings.
  induction 1 as [|entry props H _ [IHb _]]; simpl.
  - split; [reflexivity | congruence].
  - rewrite !with_severity_app.
    apply (proj2 (entry_delta_finding entry)) in H as [Hb Hw].
    rewrite Hb, IHb. split; [reflexivity|]. intros _.
    destruct (with_severity sev_warning (spec_finding entry)); [congruence | discriminate].
Qed.

(** A run on a report of well-formed entries goes through the report, on
    the findings of the vulnerability check followed by those of the
    policy. *)
Lemma run_well_formed (cfg : Config) (props : list (string * JSValue))
    (a : ExecOutcome) (st : State) :
  Forall well_formed_entry props ->
  exists st',
    run cfg true (ExecReturns (Json (JObject props))) a st
    = (Normal (if (0 <? length (errors st'))%nat then 1 else 0), st')
    /\ warnings st'
       = (warnings st
          ++ warnings (snd (checkSecurityVulnerabilities cfg a constructor))
          ++ with_severity sev_warning (spec_findings props))%list
    /\ errors st'
       = (errors st
          ++ errors (snd (checkSecurityVulnerabilities cfg a constructor))
          ++ with_severity sev_blocking (spec_findings props))%list.
Proof.
  intros Hwf. unfold run, try_catch. rewrite run_try_from_fresh.
  rewrite getOutdatedPackages_json. cbv zeta. cbn [fst snd].
  rewrite (analyzeOutdatedPackages_fresh cfg props Hwf). cbn [fst snd].
  match goal with |- context [report cfg ?s] => set (s3 := s) end.
  rewrite report_verdict, verdict_code.
  exists (mkState (warnings s3) (errors s3)
                  (console s3 ++ snd (verdict cfg (warnings s3) (errors s3)))%list).
  split; [reflexivity|].
  unfold s3, extend; cbn [warnings errors]. rewrite !app_nil_r, <- !app_assoc.
  split; reflexivity.
Qed.

(** C1: the report returns [1] exactly when there is an error and [0]
    otherwise, whatever the number of errors and of warnings; a run on a
    report with at least one patch entry exits with [1]; a run on a
    non-empty report of major and minor entries only, with a vulnerability
    check that adds no error, exits with [0] and leaves warnings.  The
    reports are those of well-formed entries, and the run is that of a new
    checker. *)
Theorem verdict_any_blocking_finding_fails :
  (forall cfg st,
      exists code st',
        report cfg st = (Normal code, st')
        /\ warnings st' = warnings st /\ errors st' = errors st
        /\ (code = 1 <-> errors st <> []) /\ (code = 0 <-> errors st = []))
  /\ (forall cfg a props,
        Forall well_formed_entry props ->
        Exists (fun entry => entry_delta entry = delta_patch) props ->
        fst (main cfg true (ExecReturns (Json (JObject props))) a) = Normal 1)
  /\ (forall cfg a props,
        Forall well_formed_entry props ->
        props <> [] ->
        Forall (fun entry => entry_delta entry = delta_major
                             \/ entry_delta entry = delta_minor) props ->
        errors (snd (checkSecurityVulnerabilities cfg a constructor)) = [] ->
        exists st',
          main cfg true (ExecReturns (Json (JObject props))) a = (Normal 0, st')
          /\ warnings st' <> [] /\ errors st' = []).
Proof.
  split; [|split].
  - intros cfg st. rewrite report_verdict. eexists _, _.
    split; [reflexivity|]. cbn [warnings errors]. rewrite verdict_code.
    repeat split; destruct (errors st); simpl; congruence.
  - intros cfg a props Hwf Hpatch. unfold main.
    destruct (run_well_formed cfg props a constructor Hwf) as (st' & -> & _ & He).
    apply patch_entry_blocks in Hpatch. cbn [fst].
    destruct (errors st') as [|err errs]; [|reflexivity].
    simpl in He. symmetry in He. apply app_eq_nil in He as [_ He]. contradiction.
  - intros cfg a props Hwf Hne Hmm Haudit. unfold main.
    destruct (run_well_formed cfg props a constructor Hwf) as (st' & Hrun & Hw & He).
    destruct (major_minor_entries_warn props Hmm) as [Hb Hwarn].
    rewrite Haudit, Hb in He. simpl in He. rewrite He in Hrun. simpl in Hrun.
    exists st'. split; [exact Hrun|]. split; [|exact He].
    rewrite Hw. simpl. intros Happ. apply app_eq_nil in Happ as [_ Happ].
    exact (Hwarn Hne Happ).
Qed.

(* ===================================================================== *)
(** ** Console output *)
(* ===================================================================== *)

(** *** What the stages leave behind *)










Section Tidy.

Variable cfg : Config.
Context {A B : Type}.







End Tidy.











(** *** The lines of a run *)
















(* ===================================================================== *)
(** ** Failures and the exit code *)
(* ===================================================================== *)

Lemma run_try_throws (cfg : Config) (package_json : bool) (o a : ExecOutcome)
    (st s : State) (e : JSError) :
  run_try cfg package_json o a st = (Throw e, s) ->
  fst (run cfg package_json o a st)
  = Normal (if ALLOW_NETWORK_FAILURE cfg then 0 else 1).
Proof.
  intros Htry. unfold run, try_catch. rewrite Htry. reflexivity.
Qed.

(** C10: with [ALLOW_NETWORK_FAILURE] set, as shipped, the handler of
    [run] turns every error, whatever its kind, into exit code [0]; and a
    run that exits with [1] has a non-empty list of errors. *)
Theorem run_allowed_exit_1_only_by_errors (cfg : Config) :
  ALLOW_NETWORK_FAILURE cfg = true ->
  (forall e st, fst (run_catch cfg e st) = Normal 0)
  /\ (forall package_json o a st e s,
        run_try cfg package_json o a st = (Throw e, s) ->
        fst (run cfg package_json o a st) = Normal 0)
  /\ (forall package_json o a st st',
        run cfg package_json o a st = (Normal 1, st') -> errors st' <> []).
Proof.
  intros Hallow. split; [|split].
  - intros e st. unfold run_catch, bind, console_error, ret. simpl.
    now rewrite Hallow.
  - intros package_json o a st e s Htry.
    rewrite (run_try_throws _ _ _ _ _ _ _ Htry). now rewrite Hallow.
  - intros package_json o a st st' Hrun.
    destruct (run_exit_1 _ _ _ _ _ _ Hrun) as [[H _]|[H _]]; [exact H | congruence].
Qed.

(** C7: for every outcome of the two queries [run] completes with exit
    code [0] or [1] and never throws.  Two version strings always have a
    delta, which is [unknown] when one of them does not parse.  The
    vulnerability check takes every error of its query itself.  Under the
    shipped configuration the outdated query never throws and a failed
    query is the empty report, so that the analysis and the report are
    always reached, with a value. *)
Theorem run_never_faults :
  (forall cfg package_json o a st,
      exists code st',
        run cfg package_json o a st = (Normal code, st') /\ (code = 0 \/ code = 1))
  /\ (forall current latest,
        getVersionDifference (JString current) (JString latest)
        = inr (version_delta current latest))
  /\ (forall current latest,
        parseVersion (JString current) = inr None
        \/ parseVersion (JString latest) = inr None ->
        version_delta current latest = delta_unknown)
  /\ (forall cfg a st, fst (checkSecurityVulnerabilities cfg a st) = Normal tt)
  /\ (forall env_CI o st,
        exists outdated,
          fst (getOutdatedPackages (CONFIG env_CI) o st) = Normal outdated
          /\ (forall e, outdated_failure o = Some e -> outdated = JObject []))
  /\ (forall env_CI o a st,
        exists outdated s2,
          run_try (CONFIG env_CI) true o a st
          = bind (analyzeOutdatedPackages (CONFIG env_CI) outdated)
                 (fun _ => report (CONFIG env_CI)) s2).
Proof.
  split; [exact run_total|].
  split; [exact getVersionDifference_version_delta|].
  split; [exact version_delta_unparseable|].
  split; [exact checkSecurityVulnerabilities_catches|].
  split.
  - intros env_CI o st. rewrite (appends_getOutdatedPackages (CONFIG env_CI) o st).
    cbn [fst]. destruct (outdated_failure o) as [e|] eqn:Ho.
    + rewrite (getOutdatedPackages_failure_allowed (CONFIG env_CI) o e Ho eq_refl).
      exists (JObject []). split; reflexivity.
    + destruct (getOutdatedPackages_allowed_total (CONFIG env_CI) o constructor eq_refl)
        as [v Hv].
      exists v. split; [exact Hv | discriminate].
  - intros env_CI o a st. rewrite run_try_stages.
    destruct (getOutdatedPackages_allowed_total (CONFIG env_CI) o st eq_refl) as [v Hv].
    destruct (getOutdatedPackages (CONFIG env_CI) o st) as [r1 s1].
    cbn [fst] in Hv. subst r1. cbv zeta.
    exists v, (snd (checkSecurityVulnerabilities (CONFIG env_CI) a s1)).
    unfold bind.
    destruct (analyzeOutdatedPackages (CONFIG env_CI) v _) as [[[]|e] s3]; reflexivity.
Qed.

(* ===================================================================== *)
(** ** Failed queries *)
(* ===================================================================== *)

Lemma checkSecurityVulnerabilities_empty (cfg : Config) :
  checkSecurityVulnerabilities cfg (ExecReturns (Json (JObject []))) constructor
  = (Normal tt,
     mkState [] [] (log_lines cfg "Checking for security vulnerabilities..." type_info)).
Proof.
  unfold checkSecurityVulnerabilities, try_catch.
  rewrite (bind_Normal _ _ _ _ _ (log_fresh cfg _ _)). reflexivity.
Qed.

(** C3 (as amended).  The outdated query: when it fails (the command
    throws, or its output is not blank and does not parse) and failures
    are allowed, its result is the empty report and the run exits as it
    does on an empty report, with [0] when the vulnerability check fails
    too; when failures are not allowed the run exits with [1] and its last
    line is the fatal message.  Blank output is the empty report under
    both settings.  The audit query: when it fails the check adds no error
    under either setting, one warning when failures are not allowed, and
    the run exits as it does on an audit report without vulnerabilities. *)
Theorem query_failure_policy :
  (forall cfg o e st,
      outdated_failure o = Some e -> ALLOW_NETWORK_FAILURE cfg = true ->
      exists st',
        getOutdatedPackages cfg o st = (Normal (JObject []), st')
        /\ warnings st' = warnings st /\ errors st' = errors st)
  /\ (forall cfg o e a st,
        outdated_failure o = Some e -> ALLOW_NETWORK_FAILURE cfg = true ->
        fst (run cfg true o a st)
        = fst (run cfg true (ExecReturns (Json (JObject []))) a st))
  /\ (forall cfg o e a,
        outdated_failure o = Some e -> audit_failure a = true ->
        ALLOW_NETWORK_FAILURE cfg = true ->
        fst (main cfg true o a) = Normal 0)
  /\ (forall cfg o e a st,
        outdated_failure o = Some e -> ALLOW_NETWORK_FAILURE cfg = false ->
        exists st' before,
          run cfg true o a st = (Normal 1, st')
          /\ console st'
             = (before
                ++ [fatal_line (Error ("Failed to check package versions: "
                                       ++ message e))])%list)
  /\ (forall cfg st,
        exists st',
          getOutdatedPackages cfg (ExecReturns Blank) st = (Normal (JObject []), st')
          /\ warnings st' = warnings st /\ errors st' = errors st)
  /\ (forall cfg a st,
        audit_failure a = true ->
        exists st',
          checkSecurityVulnerabilities cfg a st = (Normal tt, st')
          /\ errors st' = errors st
          /\ warnings st'
             = (warnings st
                ++ (if ALLOW_NETWORK_FAILURE cfg then []
                    else ["Could not check security vulnerabilities"]))%list)
  /\ (forall cfg o a st,
        audit_failure a = true ->
        fst (run cfg true o a st)
        = fst (run cfg true o (ExecReturns (Json (JObject []))) st)).
Proof.
  split; [|split; [|split; [|split; [|split; [|split]]]]].
  - intros cfg o e st Ho Hallow. rewrite (appends_getOutdatedPackages cfg o st).
    rewrite (getOutdatedPackages_failure_allowed cfg o e Ho Hallow).
    eexists. split; [reflexivity|]. unfold extend; simpl.
    now rewrite !app_nil_r.
  - intros cfg o e a st Ho Hallow. rewrite !run_code_spec.
    rewrite (getOutdatedPackages_failure_allowed cfg o e Ho Hallow).
    rewrite getOutdatedPackages_json. reflexivity.
  - intros cfg o e a Ho Ha Hallow. unfold main. rewrite run_code_spec.
    rewrite (getOutdatedPackages_failure_allowed cfg o e Ho Hallow).
    rewrite (checkSecurityVulnerabilities_failure cfg a Ha). reflexivity.
  - intros cfg o e a st Ho Hallow. unfold run, try_catch.
    rewrite run_try_from_fresh.
    rewrite (getOutdatedPackages_failure_fatal cfg o e Ho Hallow).
    cbv zeta. cbn [fst snd].
    unfold run_catch, bind, console_error, ret. rewrite Hallow. cbn [console].
    eexists _, _. split; reflexivity.
  - intros cfg st. rewrite (appends_getOutdatedPackages cfg _ st).
    rewrite getOutdatedPackages_blank.
    eexists. split; [reflexivity|]. unfold extend; simpl.
    now rewrite !app_nil_r.
  - intros cfg a st Ha. rewrite (appends_checkSecurityVulnerabilities cfg a st).
    rewrite (checkSecurityVulnerabilities_failure cfg a Ha).
    eexists. split; [reflexivity|]. unfold extend; simpl.
    split; [apply app_nil_r | reflexivity].
  - intros cfg o a st Ha. rewrite !run_code_spec.
    rewrite (checkSecurityVulnerabilities_failure cfg a Ha).
    rewrite checkSecurityVulnerabilities_empty. reflexivity.
Qed.

(* ===================================================================== *)
(** ** Running the analysis again *)
(* ===================================================================== *)

(** C9 (as amended): what the analysis of a report appends, and whether
    it throws, does not depend on the state it is run in: from any state
    it completes as from a new checker and leaves that state extended by
    the findings and lines it leaves on a new checker.  Run a second time
    on the same checker it therefore appends the same findings again. *)
Theorem analyzeOutdatedPackages_same_findings_from_any_state :
  (forall cfg outdated st,
      analyzeOutdatedPackages cfg outdated st
      = (fst (analyzeOutdatedPackages cfg outdated constructor),
         extend st (snd (analyzeOutdatedPackages cfg outdated constructor))))
  /\ (forall cfg outdated,
        bind (analyzeOutdatedPackages cfg outdated)
             (fun _ => analyzeOutdatedPackages cfg outdated) constructor
        = match analyzeOutdatedPackages cfg outdated constructor with
          | (Normal _, d) => (Normal tt, extend d d)
          | (Throw e, d) => (Throw e, d)
          end).
Proof.
  split.
  - intros cfg outdated st. exact (appends_analyzeOutdatedPackages cfg outdated st).
  - intros cfg outdated. unfold bind.
    destruct (analyzeOutdatedPackages cfg outdated constructor) as [[[]|e] d] eqn:Hd;
      [|reflexivity].
    rewrite (appends_analyzeOutdatedPackages cfg outdated d), Hd. reflexivity.
Qed.

(* ===================================================================== *)
(** ** The statements at concrete inputs *)
(* ===================================================================== *)

Lemma report_with_patch_well_formed : Forall well_formed_entry report_with_patch.
Proof. repeat constructor; discriminate. Defined.

Lemma report_major_minor_well_formed : Forall well_formed_entry report_major_minor.
Proof. repeat constructor; discriminate. Defined.

Lemma verdict_any_blocking_finding_fails_witness :
  fst (main (CONFIG None) true (ExecReturns (Json (JObject report_with_patch)))
            (ExecReturns (Json (JObject []))))
  = Normal 1
  /\ exists st',
       main (CONFIG None) true (ExecReturns (Json (JObject report_major_minor)))
            (ExecReturns (Json (audit_report [("debug", vulnerability "low")])))
       = (Normal 0, st')
       /\ warnings st' <> [] /\ errors st' = [].
Proof.
  split.
  - apply (proj1 (proj2 verdict_any_blocking_finding_fails)).
    + exact report_with_patch_well_formed.
    + apply Exists_cons_hd. reflexivity.
  - apply (proj2 (proj2 verdict_any_blocking_finding_fails)).
    + exact report_major_minor_well_formed.
    + discriminate.
    + constructor; [left; reflexivity|].
      constructor; [right; reflexivity|]. constructor.
    + reflexivity.
Defined.

Lemma analyzeOutdatedPackages_policy_witness :
  exists st',
    analyzeOutdatedPackages (CONFIG (Some "true")) (JObject report_with_patch) constructor
    = (Normal tt, st')
    /\ warnings st' = ["📦 Major version available:   react: 17.0.2 → 18.2.0 (major)"]
    /\ errors st'
       = ["🔧 Patch version available:   lodash: 4.17.20 → 4.17.21 (patch) - Consider updating soon"]
    /\ console st' = [].
Proof.
  exact (analyzeOutdatedPackages_policy (CONFIG (Some "true")) report_with_patch
           constructor report_with_patch_well_formed).
Defined.

Lemma query_failure_policy_witness :
  fst (main (CONFIG None) true (ExecThrows timeout_error) (ExecThrows timeout_error))
  = Normal 0
  /\ exists st' before,
       run (strict_config None) true (ExecReturns (Malformed (SyntaxError "Unexpected token")))
           (ExecReturns (Json (JObject []))) constructor
       = (Normal 1, st')
       /\ console st'
          = (before
             ++ [fatal_line (Error ("Failed to check package versions: "
                                    ++ "Unexpected token"))])%list.
Proof.
  split.
  - exact (proj1 (proj2 (proj2 query_failure_policy))
             (CONFIG None) (ExecThrows timeout_error) timeout_error
             (ExecThrows timeout_error) eq_refl eq_refl eq_refl).
  - exact (proj1 (proj2 (proj2 (proj2 query_failure_policy)))
             (strict_config None)
             (ExecReturns (Malformed (SyntaxError "Unexpected token")))
             (SyntaxError "Unexpected token")
             (ExecReturns (Json (JObject []))) constructor eq_refl eq_refl).
Defined.

Lemma checkSecurityVulnerabilities_one_finding_witness :
  filter_throwing is_high_severity (map snd audit_critical_and_low)
  = inr [vulnerability "critical"]
  /\ exists st',
       checkSecurityVulnerabilities (CONFIG None)
         (ExecReturns (Json (audit_report audit_critical_and_low))) constructor
       = (Normal tt, st')
       /\ warnings st' = []
       /\ errors st'
          = ["🔒 1 high/critical security vulnerabilities found! Run 'npm audit fix' before committing."].
Proof.
  apply (checkSecurityVulnerabilities_one_finding (CONFIG None)
           [("auditReportVersion", JNumber (Qmake 2 1));
            ("vulnerabilities", JObject audit_critical_and_low)]
           audit_critical_and_low constructor).
  - reflexivity.
  - repeat constructor.
Defined.

Lemma run_never_faults_witness :
  version_delta "1.2.x" "1.2.3" = delta_unknown.
Proof.
  exact (proj1 (proj2 (proj2 run_never_faults)) "1.2.x" "1.2.3" (or_introl eq_refl)).
Defined.


Lemma run_allowed_exit_1_only_by_errors_witness :
  ALLOW_NETWORK_FAILURE (CONFIG None) = true
  /\ fst (run_catch (CONFIG None) (TypeError "version.match is not a function")
                    constructor)
     = Normal 0.
Proof.
  split; [reflexivity|].
  exact (proj1 (run_allowed_exit_1_only_by_errors (CONFIG None) eq_refl)
           (TypeError "version.match is not a function") constructor).
Defined.

(** Outside the well-formed reports: an entry without [current] makes the
    analysis throw, and under the shipped configuration the run then exits
    with [0] although the patch finding of the entry before it has been
    recorded. *)
Example run_with_missing_package :
  exists st',
    main (CONFIG (Some "true")) true
         (ExecReturns (Json (JObject report_with_missing_package)))
         (ExecReturns (Json (JObject [])))
    = (Normal 0, st')
    /\ errors st'
       = ["🔧 Patch version available:   lodash: 4.17.20 → 4.17.21 (patch) - Consider updating soon"]
    /\ console st'
       = [fatal_line (TypeError "Cannot read properties of undefined (reading 'match')")].
Proof. eexists. repeat split. Qed.

(** C3 as stated fails.  With failures not allowed, a failed audit query
    does not give exit code [1]: the run goes on, with one warning.  Nor
    does blank output of the outdated query: it is the empty report.  And
    with failures allowed, a failed outdated query does not give exit
    code [0] when the audit reports a critical vulnerability. *)
Lemma audit_failure_does_not_block :
  (audit_failure (ExecThrows timeout_error) = true
   /\ main (strict_config (Some "true")) true (ExecReturns (Json (JObject [])))
           (ExecThrows timeout_error)
      = (Normal 0,
         mkState ["Could not check security vulnerabilities"] []
                 [Stdout (newline ++ "⚠️  Package freshness warnings:");
                  Stdout "Could not check security vulnerabilities";
                  Stdout (newline ++ "Consider updating these packages when convenient.")]))
  /\ main (strict_config (Some "true")) true (ExecReturns Blank)
          (ExecReturns (Json (JObject [])))
     = (Normal 0, mkState [] [] [])
  /\ (outdated_failure (ExecThrows timeout_error) = Some timeout_error
      /\ fst (main (CONFIG (Some "true")) true (ExecThrows timeout_error)
                   (ExecReturns (Json (audit_report audit_two_critical))))
         = Normal 1).
Proof. repeat split. Qed.

(** C5 as stated fails: two critical entries give one finding, not two. *)
Lemma two_critical_entries_one_finding :
  length (spec_high_severity audit_two_critical) = 2
  /\ errors (snd (checkSecurityVulnerabilities (CONFIG None)
                    (ExecReturns (Json (audit_report audit_two_critical)))
                    constructor))
     = ["🔒 2 high/critical security vulnerabilities found! Run 'npm audit fix' before committing."].
Proof. split; reflexivity. Qed.


(** C9 as stated fails: the analysis run twice on the same checker leaves
    every finding twice. *)
Lemma second_analysis_doubles_findings :
  warnings (snd (analyzeOutdatedPackages (CONFIG None) (JObject report_major_minor)
                   constructor))
  = ["📦 Major version available:   react: 17.0.2 → 18.2.0 (major)";
     "📦 Minor version available:   eslint: 8.40.0 → 8.57.0 (minor)"]
  /\ warnings (snd (bind (analyzeOutdatedPackages (CONFIG None) (JObject report_major_minor))
                         (fun _ => analyzeOutdatedPackages (CONFIG None)
                                     (JObject report_major_minor))
                         constructor))
     = ["📦 Major version available:   react: 17.0.2 → 18.2.0 (major)";
        "📦 Minor version available:   eslint: 8.40.0 → 8.57.0 (minor)";
        "📦 Major version available:   react: 17.0.2 → 18.2.0 (major)";
        "📦 Minor version available:   eslint: 8.40.0 → 8.57.0 (minor)"].
Proof. split; reflexivity. Qed.

(* ===================================================================== *)
(** ** More on the version comparator *)
(* ===================================================================== *)

Ltac eval_digit_value :=
  match goal with
  | |- context [digit_value ?c] =>
      let v := eval vm_compute in (digit_value c) in
      change (digit_value c) with v
  end.

Lemma parseInt_from_of_uint_acc (d : Decimal.uint) (acc : positive) :
  parseInt_from (N.pos acc) (NilEmpty.string_of_uint d) = N.pos (Pos.of_uint_acc d acc).
Proof.
  revert acc. induction d as [|d IH|d IH|d IH|d IH|d IH|d IH|d IH|d IH|d IH|d IH];
    intros acc; cbn [NilEmpty.string_of_uint parseInt_from Pos.of_uint_acc];
    [reflexivity|..];
    eval_digit_value;
    match goal with
    | |- parseInt_from ?x _ = N.pos (Pos.of_uint_acc _ ?p) =>
        replace x with (N.pos p) by lia
    end; apply IH.
Qed.

Lemma parseInt_from_of_uint (d : Decimal.uint) :
  parseInt_from 0 (NilEmpty.string_of_uint d) = N.of_uint d.
Proof.
  unfold N.of_uint.
  induction d as [|d IH|d IH|d IH|d IH|d IH|d IH|d IH|d IH|d IH|d IH];
    cbn [NilEmpty.string_of_uint parseInt_from Pos.of_uint];
    [reflexivity|..]; eval_digit_value;
    [exact IH | ..]; apply parseInt_from_of_uint_acc.
Qed.

Lemma all_digits_of_uint (d : Decimal.uint) :
  all_digits (NilEmpty.string_of_uint d) = true.
Proof. induction d; simpl; auto. Qed.

(** The canonical numeral of a number denotes the number. *)
Lemma parseInt_from_decimal (n : N) : parseInt_from 0 (decimal n) = n.
Proof.
  unfold decimal. rewrite <- (DecimalN.Unsigned.of_to n) at 2.
  destruct (N.to_uint n); try apply parseInt_from_of_uint. reflexivity.
Qed.

(** [parseInt] reads back the canonical numeral of every safe integer. *)
Lemma parseInt_decimal (n : N) : safe_integer n = true -> parseInt (decimal n) = n.
Proof.
  intros Hn. unfold parseInt. rewrite parseInt_from_decimal.
  apply Number_value_small. now apply N.ltb_lt.
Qed.

Lemma digit_run_decimal (n : N) : digit_run (decimal n) = true.
Proof.
  unfold decimal, digit_run.
  destruct (N.to_uint n) as [|d|d|d|d|d|d|d|d|d|d]; try reflexivity;
    simpl; apply all_digits_of_uint.
Qed.

Lemma string_app_assoc (a b c : string) : (a ++ b) ++ c = a ++ (b ++ c).
Proof. induction a as [|x a IH]; simpl; [reflexivity | now rewrite IH]. Qed.

(** X1: every version whose three numbers are safe integers (at most
    2^53 - 1, where JavaScript numbers are exact), written in canonical
    decimal form and followed by anything that does not start with a
    digit, is read back by [parseVersion] as the same three numbers. *)
Theorem parseVersion_render (v : ParsedVersion) (suffix : string) :
  safe_integer (major v) = true ->
  safe_integer (minor v) = true ->
  safe_integer (patch v) = true ->
  ends_run suffix = true ->
  parseVersion (JString (render v ++ suffix)) = inr (Some v).
Proof.
  intros H1 H2 H3 Hs. simpl.
  assert (Hshape : render v ++ suffix
                   = dotted (decimal (major v)) (decimal (minor v))
                            (decimal (patch v)) suffix).
  { unfold render, dotted. rewrite !string_app_assoc. reflexivity. }
  rewrite Hshape.
  rewrite (match_version_dotted _ _ _ _ (digit_run_decimal _) (digit_run_decimal _)
             (digit_run_decimal _) Hs).
  rewrite !parseInt_decimal by assumption. now destruct v.
Qed.

Lemma parseVersion_render_witness :
  parseVersion (JString (render (mkVersion 18 2 0) ++ "-rc.1"))
  = inr (Some (mkVersion 18 2 0)).
Proof.
  exact (parseVersion_render (mkVersion 18 2 0) "-rc.1" eq_refl eq_refl eq_refl eq_refl).
Defined.

(** Beyond the safe integers a numeral is not always read back:
    [parseInt] rounds to the nearest double. *)
Example parseVersion_rounds :
  parseVersion (JString "9007199254740993.0.0")
  = inr (Some (mkVersion 9007199254740992 0 0)).
Proof. vm_compute. reflexivity. Qed.

Lemma parsed_parseVersion (s : string) :
  parseVersion (JString s) = inr (parsed s).
Proof.
  unfold parsed. destruct (parseVersion_string_total s) as [r ->]. reflexivity.
Qed.

Lemma getVersionDifference_parsed (current latest : string) :
  getVersionDifference (JString current) (JString latest)
  = inr match parsed current, parsed latest with
        | Some c, Some l => compare_versions c l
        | _, _ => delta_unknown
        end.
Proof.
  unfold getVersionDifference. rewrite !parsed_parseVersion.
  destruct (parsed current), (parsed latest); reflexivity.
Qed.

Lemma compare_versions_not_unknown (c l : ParsedVersion) :
  compare_versions c l <> delta_unknown.
Proof.
  unfold compare_versions.
  destruct (major c <? major l)%N, (minor c <? minor l)%N, (patch c <? patch l)%N;
    discriminate.
Qed.

Lemma compare_versions_ordered (c l : ParsedVersion) :
  version_le c l -> compare_versions c l = coarsest_difference c l.
Proof.
  unfold version_le, compare_versions, coarsest_difference.
  destruct (N.ltb_spec (major c) (major l)), (N.eqb_spec (major c) (major l));
    destruct (N.ltb_spec (minor c) (minor l)), (N.eqb_spec (minor c) (minor l));
    destruct (N.ltb_spec (patch c) (patch l)), (N.eqb_spec (patch c) (patch l));
    simpl; intros ?; solve [reflexivity | lia].
Qed.

Lemma coarsest_difference_none (c l : ParsedVersion) :
  coarsest_difference c l = delta_none -> c = l.
Proof.
  unfold coarsest_difference. destruct c as [a1 a2 a3], l as [b1 b2 b3]. simpl.
  destruct (N.eqb_spec a1 b1), (N.eqb_spec a2 b2), (N.eqb_spec a3 b3);
    simpl; intros ?; solve [discriminate | congruence].
Qed.

(** X2: when the latest version is not older than the current one in the
    order of versions, [getVersionDifference] returns the coarsest
    component in which the two differ, and [none] only when the two are
    the same version. *)
Theorem getVersionDifference_ordered (current latest : string) (c l : ParsedVersion) :
  parsed current = Some c -> parsed latest = Some l -> version_le c l ->
  getVersionDifference (JString current) (JString latest)
  = inr (coarsest_difference c l)
  /\ (coarsest_difference c l = delta_none -> c = l).
Proof.
  intros Hc Hl Hle. rewrite getVersionDifference_parsed, Hc, Hl.
  rewrite (compare_versions_ordered c l Hle).
  split; [reflexivity | apply coarsest_difference_none].
Qed.

Lemma getVersionDifference_ordered_witness :
  getVersionDifference (JString "1.9.9") (JString "1.10.0-beta")
  = inr (coarsest_difference (mkVersion 1 9 9) (mkVersion 1 10 0))
  /\ (coarsest_difference (mkVersion 1 9 9) (mkVersion 1 10 0) = delta_none ->
      mkVersion 1 9 9 = mkVersion 1 10 0).
Proof.
  apply (getVersionDifference_ordered "1.9.9" "1.10.0-beta"
           (mkVersion 1 9 9) (mkVersion 1 10 0)).
  - reflexivity.
  - reflexivity.
  - right. split; [reflexivity|]. left. reflexivity.
Defined.

(** X3: [getVersionDifference] answers [none] in both directions exactly
    when both strings parse to the same version. *)
Theorem getVersionDifference_none_both_ways (a b : string) :
  (getVersionDifference (JString a) (JString b) = inr delta_none
   /\ getVersionDifference (JString b) (JString a) = inr delta_none)
  <-> (exists v, parsed a = Some v /\ parsed b = Some v).
Proof.
  rewrite !getVersionDifference_parsed.
  destruct (parsed a) as [[a1 a2 a3]|], (parsed b) as [[b1 b2 b3]|];
    try (split; [intros [H _]; discriminate | intros (v & H1 & H2); discriminate]).
  unfold compare_versions; simpl. split.
  - intros [H1 H2]. exists (mkVersion a1 a2 a3). split; [reflexivity|].
    destruct (N.ltb_spec a1 b1), (N.ltb_spec a2 b2), (N.ltb_spec a3 b3);
      try discriminate;
      destruct (N.ltb_spec b1 a1), (N.ltb_spec b2 a2), (N.ltb_spec b3 a3);
      try discriminate.
    repeat f_equal; lia.
  - intros (v & H1 & H2). inversion H1; subst. inversion H2; subst.
    rewrite !N.ltb_irrefl. split; reflexivity.
Qed.

(** X4: [getVersionDifference] answers [unknown] on two strings exactly
    when one of them does not parse. *)
Theorem getVersionDifference_unknown_iff (a b : string) :
  getVersionDifference (JString a) (JString b) = inr delta_unknown
  <-> (parsed a = None \/ parsed b = None).
Proof.
  rewrite getVersionDifference_parsed.
  destruct (parsed a) as [va|], (parsed b) as [vb|]; split; intros H;
    try solve [auto | reflexivity | destruct H; discriminate].
  inversion H as [H']. exfalso. exact (compare_versions_not_unknown _ _ H').
Qed.

(** X5: two strings with the same three numbers compare as [none]
    whatever follows the third number, so a pre-release and its release
    are never told apart. *)
Theorem getVersionDifference_ignores_suffix (g1 g2 g3 suffix1 suffix2 : string) :
  digit_run g1 = true -> digit_run g2 = true -> digit_run g3 = true ->
  ends_run suffix1 = true -> ends_run suffix2 = true ->
  getVersionDifference (JString (dotted g1 g2 g3 suffix1))
                       (JString (dotted g1 g2 g3 suffix2))
  = inr delta_none.
Proof.
  intros H1 H2 H3 Hs1 Hs2. unfold getVersionDifference. simpl.
  rewrite (match_version_dotted _ _ _ _ H1 H2 H3 Hs1).
  rewrite (match_version_dotted _ _ _ _ H1 H2 H3 Hs2).
  unfold compare_versions. simpl. rewrite !N.ltb_irrefl. reflexivity.
Qed.

Lemma getVersionDifference_ignores_suffix_witness :
  getVersionDifference (JString "2.0.0-beta.1") (JString "2.0.0") = inr delta_none.
Proof.
  exact (getVersionDifference_ignores_suffix "2" "0" "0" "-beta.1" ""
           eq_refl eq_refl eq_refl eq_refl eq_refl).
Defined.

(* ===================================================================== *)
(** ** More on [run] *)
(* ===================================================================== *)

(** X6: without a [package.json], [run] returns [0] whatever the two
    queries would bring and whatever the configuration; it leaves the
    findings as they are and prints at most the line that says so. *)
Theorem run_without_package_json (cfg : Config) (o a : ExecOutcome) (st : State) :
  run cfg false o a st
  = (Normal 0,
     mkState (warnings st) (errors st)
       (console st
        ++ log_lines cfg "No package.json found, skipping package freshness check"
                     type_warn)%list).
Proof.
  unfold run, try_catch. rewrite run_try_no_package. reflexivity.
Qed.

(** *** What does not depend on [VERBOSE] *)

Lemma same_findings_refl (st : State) : same_findings st st.
Proof. split; reflexivity. Qed.

Lemma agree_ret {A : Type} (a : A) : agree (ret a) (ret a).
Proof. intros s1 s2 H. split; [reflexivity | exact H]. Qed.

Lemma agree_throw {A : Type} (e : JSError) : agree (@throw A e) (throw e).
Proof. intros s1 s2 H. split; [reflexivity | exact H]. Qed.

Lemma agree_lift {A : Type} (r : JSError + A) : agree (lift r) (lift r).
Proof. destruct r; [apply agree_throw | apply agree_ret]. Qed.

Lemma agree_await {A : Type} (c : Completion A) : agree (await c) (await c).
Proof. destruct c; [apply agree_ret | apply agree_throw]. Qed.

Lemma agree_bind {A B : Type} (m1 m2 : M A) (k1 k2 : A -> M B) :
  agree m1 m2 -> (forall a, agree (k1 a) (k2 a)) -> agree (bind m1 k1) (bind m2 k2).
Proof.
  intros Hm Hk s1 s2 H. unfold bind. destruct (Hm s1 s2 H) as [Hr Hs].
  destruct (m1 s1) as [[a|e] t1], (m2 s2) as [[a'|e'] t2]; simpl in *;
    try discriminate.
  - inversion Hr; subst. exact (Hk a' t1 t2 Hs).
  - inversion Hr; subst. split; [reflexivity | assumption].
Qed.

Lemma agree_try_catch {A : Type} (b1 b2 : M A) (h1 h2 : JSError -> M A) :
  agree b1 b2 -> (forall e, agree (h1 e) (h2 e)) ->
  agree (try_catch b1 h1) (try_catch b2 h2).
Proof.
  intros Hb Hh s1 s2 H. unfold try_catch. destruct (Hb s1 s2 H) as [Hr Hs].
  destruct (b1 s1) as [[a|e] t1], (b2 s2) as [[a'|e'] t2]; simpl in *;
    try discriminate.
  - split; assumption.
  - inversion Hr; subst. exact (Hh e' t1 t2 Hs).
Qed.

Lemma agree_settled {A : Type} (m1 m2 : M A) :
  agree m1 m2 -> agree (settled m1) (settled m2).
Proof.
  intros Hm s1 s2 H. unfold settled. destruct (Hm s1 s2 H) as [Hr Hs].
  destruct (m1 s1) as [c1 t1], (m2 s2) as [c2 t2]; simpl in *.
  split; [congruence | exact Hs].
Qed.

Lemma agree_for_each {A : Type} (f1 f2 : A -> M unit) (l : list A) :
  (forall x, agree (f1 x) (f2 x)) -> agree (for_each f1 l) (for_each f2 l).
Proof.
  intros Hf. induction l as [|x l IH]; simpl.
  - apply agree_ret.
  - apply agree_bind; auto.
Qed.

Lemma agree_if {A : Type} (b : bool) (m1 m2 n1 n2 : M A) :
  agree m1 n1 -> agree m2 n2 ->
  agree (if b then m1 else m2) (if b then n1 else n2).
Proof. destruct b; auto. Qed.

Lemma agree_push_warning (text : string) :
  agree (push_warning text) (push_warning text).
Proof.
  intros s1 s2 [Hw He]. unfold push_warning, same_findings; simpl.
  rewrite Hw, He. repeat split.
Qed.

Lemma agree_push_error (text : string) : agree (push_error text) (push_error text).
Proof.
  intros s1 s2 [Hw He]. unfold push_error, same_findings; simpl.
  rewrite Hw, He. repeat split.
Qed.

Lemma agree_get_errors : agree get_errors get_errors.
Proof.
  intros s1 s2 [Hw He]. unfold get_errors, same_findings; simpl.
  rewrite Hw, He. repeat split.
Qed.

Lemma agree_get_warnings : agree get_warnings get_warnings.
Proof.
  intros s1 s2 [Hw He]. unfold get_warnings, same_findings; simpl.
  rewrite Hw, He. repeat split.
Qed.

(** Printing is invisible to the findings: one line, another or none. *)
Lemma agree_console_log (t1 t2 : string) : agree (console_log t1) (console_log t2).
Proof. intros s1 s2 H. split; [reflexivity | exact H]. Qed.

Lemma agree_console_error (t1 t2 : string) :
  agree (console_error t1) (console_error t2).
Proof. intros s1 s2 H. split; [reflexivity | exact H]. Qed.

Lemma agree_log (cfg1 cfg2 : Config) (text : string) (type : LogType) :
  agree (log cfg1 text type) (log cfg2 text type).
Proof.
  intros s1 s2 H. unfold log.
  destruct (VERBOSE cfg1 || is_error type), (VERBOSE cfg2 || is_error type);
    split; solve [reflexivity | exact H].
Qed.

Lemma agree_execSync (o : ExecOutcome) : agree (execSync o) (execSync o).
Proof. destruct o; [apply agree_throw | apply agree_ret]. Qed.

#[local] Hint Resolve agree_ret agree_throw agree_lift agree_await agree_settled
  agree_push_warning agree_push_error agree_get_errors agree_get_warnings
  agree_console_log agree_console_error agree_log agree_execSync : appends.

Ltac agree_step :=
  first
    [ apply agree_bind; [|intros ?]
    | apply agree_try_catch; [|intros ?]
    | apply agree_for_each; intros ?
    | apply agree_if
    | apply agree_settled
    | solve [auto with appends]
    | match goal with
      | |- agree (match ?x with _ => _ end) (match ?x with _ => _ end) => destruct x
      end ].

Ltac agree_auto := repeat agree_step.

Section Verbosity.

Variables cfg1 cfg2 : Config.
Hypothesis same_policy : ALLOW_NETWORK_FAILURE cfg1 = ALLOW_NETWORK_FAILURE cfg2.

Lemma agree_checkPackageExists (package_json : bool) :
  agree (checkPackageExists cfg1 package_json) (checkPackageExists cfg2 package_json).
Proof. unfold checkPackageExists. agree_auto. Qed.

Lemma agree_getOutdatedPackages (o : ExecOutcome) :
  agree (getOutdatedPackages cfg1 o) (getOutdatedPackages cfg2 o).
Proof. unfold getOutdatedPackages. rewrite same_policy. agree_auto. Qed.

Lemma agree_checkSecurityVulnerabilities (a : ExecOutcome) :
  agree (checkSecurityVulnerabilities cfg1 a) (checkSecurityVulnerabilities cfg2 a).
Proof. unfold checkSecurityVulnerabilities. rewrite same_policy. agree_auto. Qed.

Lemma agree_analyze_entry (entry : string * JSValue) :
  agree (analyze_entry cfg1 entry) (analyze_entry cfg2 entry).
Proof. unfold analyze_entry. destruct entry. agree_auto. Qed.

Lemma agree_analyzeOutdatedPackages (outdated : JSValue) :
  agree (analyzeOutdatedPackages cfg1 outdated) (analyzeOutdatedPackages cfg2 outdated).
Proof.
  unfold analyzeOutdatedPackages. agree_auto. apply agree_analyze_entry.
Qed.

Lemma agree_report : agree (report cfg1) (report cfg2).
Proof. unfold report. agree_auto. Qed.

Lemma agree_run (package_json : bool) (o a : ExecOutcome) :
  agree (run cfg1 package_json o a) (run cfg2 package_json o a).
Proof.
  unfold run, run_try, run_catch. rewrite same_policy.
  repeat first
    [ apply agree_checkPackageExists
    | apply agree_getOutdatedPackages
    | apply agree_checkSecurityVulnerabilities
    | apply agree_analyzeOutdatedPackages
    | apply agree_report
    | agree_step ].
Qed.

End Verbosity.

(** X7: the verdict does not depend on [VERBOSE].  Two configurations
    with the same [ALLOW_NETWORK_FAILURE], run on the same inputs from
    states with the same findings, give the same exit code and leave the
    same warnings and errors; only what is printed can differ. *)
Theorem run_verdict_independent_of_VERBOSE (cfg1 cfg2 : Config)
    (package_json : bool) (o a : ExecOutcome) (s1 s2 : State) :
  ALLOW_NETWORK_FAILURE cfg1 = ALLOW_NETWORK_FAILURE cfg2 ->
  same_findings s1 s2 ->
  fst (run cfg1 package_json o a s1) = fst (run cfg2 package_json o a s2)
  /\ warnings (snd (run cfg1 package_json o a s1))
     = warnings (snd (run cfg2 package_json o a s2))
  /\ errors (snd (run cfg1 package_json o a s1))
     = errors (snd (run cfg2 package_json o a s2)).
Proof.
  intros Hallow Hsame.
  destruct (agree_run cfg1 cfg2 Hallow package_json o a s1 s2 Hsame) as [Hr [Hw He]].
  repeat split; assumption.
Qed.

Lemma run_verdict_independent_of_VERBOSE_witness :
  fst (run (CONFIG None) true (ExecReturns (Json (JObject report_with_patch)))
           (ExecThrows timeout_error) constructor)
  = fst (run (CONFIG (Some "true")) true (ExecReturns (Json (JObject report_with_patch)))
             (ExecThrows timeout_error) constructor)
  /\ warnings (snd (run (CONFIG None) true
                        (ExecReturns (Json (JObject report_with_patch)))
                        (ExecThrows timeout_error) constructor))
     = warnings (snd (run (CONFIG (Some "true")) true
                          (ExecReturns (Json (JObject report_with_patch)))
                          (ExecThrows timeout_error) constructor))
  /\ errors (snd (run (CONFIG None) true
                      (ExecReturns (Json (JObject report_with_patch)))
                      (ExecThrows timeout_error) constructor))
     = errors (snd (run (CONFIG (Some "true")) true
                        (ExecReturns (Json (JObject report_with_patch)))
                        (ExecThrows timeout_error) constructor)).
Proof.
  apply (run_verdict_independent_of_VERBOSE (CONFIG None) (CONFIG (Some "true"))).
  - reflexivity.
  - split; reflexivity.
Defined.

(** X8: the four age thresholds of the configuration are never consulted
    by the checker (and the timeout only by the two commands, whose
    outcomes are inputs here): two configurations that agree on
    [ALLOW_NETWORK_FAILURE] and [VERBOSE] give the same run, to the last
    printed line, on the same query outcomes. *)
Theorem run_ignores_thresholds (cfg1 cfg2 : Config)
    (package_json : bool) (o a : ExecOutcome) (st : State) :
  ALLOW_NETWORK_FAILURE cfg1 = ALLOW_NETWORK_FAILURE cfg2 ->
  VERBOSE cfg1 = VERBOSE cfg2 ->
  run cfg1 package_json o a st = run cfg2 package_json o a st.
Proof.
  destruct cfg1, cfg2. simpl. intros -> ->. reflexivity.
Qed.

Lemma run_ignores_thresholds_witness :
  run (CONFIG None) true (ExecReturns (Json (JObject report_with_patch)))
      (ExecReturns (Json (JObject []))) constructor
  = run (mkConfig 1 1 1 1 1 true true) true
        (ExecReturns (Json (JObject report_with_patch)))
        (ExecReturns (Json (JObject []))) constructor.
Proof.
  exact (run_ignores_thresholds (CONFIG None) (mkConfig 1 1 1 1 1 true true) true
           (ExecReturns (Json (JObject report_with_patch)))
           (ExecReturns (Json (JObject []))) constructor eq_refl eq_refl).
Defined.

Lemma run_try_exit_0 (cfg : Config) (o a : ExecOutcome) (st st' : State) :
  run_try cfg true o a st = (Normal 0, st') -> errors st' = [].
Proof.
  rewrite run_try_stages.
  destruct (getOutdatedPackages cfg o st) as [[outdated|e] s1]; [|discriminate].
  cbv zeta.
  destruct (analyzeOutdatedPackages cfg outdated
              (snd (checkSecurityVulnerabilities cfg a s1))) as [[[]|e] s3];
    [|discriminate].
  rewrite report_verdict. unfold verdict.
  destruct (errors s3) as [|err errs] eqn:He; [|discriminate].
  intros H; inversion H; subst. reflexivity.
Qed.

(** X9: with failures not allowed, exit code [0] is sound: when
    [package.json] exists and [run] returns [0], nothing was thrown in its
    [try] block (both the query and the analysis completed) and the
    checker holds no error. *)
Theorem run_strict_exit_0_sound (cfg : Config) (o a : ExecOutcome) (st st' : State) :
  ALLOW_NETWORK_FAILURE cfg = false ->
  run cfg true o a st = (Normal 0, st') ->
  run_try cfg true o a st = (Normal 0, st') /\ errors st' = [].
Proof.
  intros Hallow. unfold run, try_catch.
  destruct (run_try cfg true o a st) as [[code|e] s] eqn:Htry.
  - intros H; inversion H; subst. split; [reflexivity|].
    exact (run_try_exit_0 _ _ _ _ _ Htry).
  - unfold run_catch, bind, console_error, ret. rewrite Hallow. discriminate.
Qed.

Lemma run_strict_exit_0_sound_witness :
  run_try (strict_config None) true (ExecReturns Blank)
          (ExecReturns (Json (JObject []))) constructor
  = (Normal 0, snd (run (strict_config None) true (ExecReturns Blank)
                        (ExecReturns (Json (JObject []))) constructor))
  /\ errors (snd (run (strict_config None) true (ExecReturns Blank)
                      (ExecReturns (Json (JObject []))) constructor)) = [].
Proof.
  apply (run_strict_exit_0_sound (strict_config None) (ExecReturns Blank)
           (ExecReturns (Json (JObject []))) constructor).
  - reflexivity.
  - reflexivity.
Defined.

Lemma report_extends (cfg : Config) (st : State) :
  exists d, snd (report cfg st) = extend st d.
Proof.
  rewrite report_verdict.
  exists (mkState [] [] (snd (verdict cfg (warnings st) (errors st)))).
  unfold extend; simpl. now rewrite !app_nil_r.
Qed.

(** X10: [run] only ever appends: the warnings, the errors and the
    printed lines it starts with are still there when it returns, in
    their order, at the head of what it leaves. *)
Theorem run_only_appends (cfg : Config) (package_json : bool)
    (o a : ExecOutcome) (st : State) :
  exists d, snd (run cfg package_json o a st) = extend st d.
Proof.
  destruct package_json.
  - unfold run, try_catch. rewrite run_try_from_fresh. cbv zeta.
    set (s2 := extend (extend st _) _).
    assert (Hs2 : exists d, s2 = extend st d)
      by (unfold s2; rewrite extend_assoc; eexists; reflexivity).
    destruct Hs2 as [d2 Hd2].
    assert (Hcatch : forall e s d, s = extend st d ->
              exists d', snd (run_catch cfg e s) = extend st d').
    { intros e s d ->. unfold run_catch, bind, console_error, ret. cbn [snd].
      exists (extend d (mkState [] [] [fatal_line e])).
      unfold extend, fatal_line; simpl. now rewrite !app_nil_r, !app_assoc. }
    destruct (fst (getOutdatedPackages cfg o constructor)) as [outdated|e].
    + destruct (fst (analyzeOutdatedPackages cfg outdated constructor)).
      * destruct (report_extends cfg
                    (extend s2 (snd (analyzeOutdatedPackages cfg outdated constructor))))
          as [d3 Hd3].
        destruct (report cfg _) as [[code|e] s3] eqn:Hrep; cbn [snd] in *.
        -- rewrite Hd3, Hd2, !extend_assoc. eexists; reflexivity.
        -- rewrite report_verdict in Hrep. discriminate.
      * apply (Hcatch _ _ (extend d2 (snd (analyzeOutdatedPackages cfg outdated constructor)))).
        now rewrite Hd2, extend_assoc.
    + apply (Hcatch _ _ d2). exact Hd2.
  - unfold run, try_catch. rewrite run_try_no_package. cbn [snd].
    exists (mkState [] []
              (log_lines cfg "No package.json found, skipping package freshness check"
                         type_warn)).
    unfold extend. cbn [warnings errors console]. now rewrite !app_nil_r.
Qed.

(* ===================================================================== *)
(** ** More on the analysis and on the vulnerability check *)
(* ===================================================================== *)





Lemma findings_count_extend (st d : State) :
  findings_count (extend st d) = findings_count st + findings_count d.
Proof. unfold findings_count, extend; simpl. rewrite !length_app. lia. Qed.

Lemma analyze_entry_count_fresh (cfg : Config) (entry : string * JSValue) :
  findings_count (snd (analyze_entry cfg entry constructor)) <= 1.
Proof.
  destruct (entry_versions (snd entry)) as [[c l]|] eqn:Hv.
  - assert (Hwf : well_formed_entry entry) by (unfold well_formed_entry; congruence).
    rewrite (analyze_entry_well_formed cfg entry Hwf).
    unfold findings_count, spec_finding; simpl. rewrite Hv.
    destruct (version_delta c l); simpl; lia.
  - destruct entry as [name info]. simpl in Hv.
    destruct (analyze_entry_not_well_formed cfg name info constructor Hv) as [e ->].
    unfold findings_count; simpl. lia.
Qed.

Lemma for_each_analyze_entry_count (cfg : Config) (entries : list (string * JSValue))
    (st : State) :
  findings_count (snd (for_each (analyze_entry cfg) entries st))
  <= findings_count st + length entries.
Proof.
  revert st. induction entries as [|entry entries IH]; intros st; simpl.
  - lia.
  - unfold bind.
    pose proof (analyze_entry_count_fresh cfg entry) as Hone.
    pose proof (findings_count_extend st (snd (analyze_entry cfg entry constructor)))
      as Hcount.
    destruct (analyze_entry cfg entry st) as [[[]|e] s1] eqn:Hentry;
      rewrite (appends_analyze_entry cfg entry st) in Hentry;
      injection Hentry as _ Hs; rewrite Hs in Hcount.
    + specialize (IH s1). lia.
    + cbn [snd]. lia.
Qed.

(** X12: whatever value the outdated query brought, the analysis adds
    at most one finding for each of its entries, and removes none. *)
Theorem analyzeOutdatedPackages_at_most_one_per_entry (cfg : Config)
    (outdated : JSValue) (st : State) :
  findings_count st
  <= findings_count (snd (analyzeOutdatedPackages cfg outdated st))
  <= findings_count st
     + match own_properties outdated with
       | inr entries => length entries
       | inl _ => 0
       end.
Proof.
  split.
  - rewrite (appends_analyzeOutdatedPackages cfg outdated st). cbn [snd].
    rewrite findings_count_extend. lia.
  - unfold analyzeOutdatedPackages, bind.
    destruct (own_properties outdated) as [e|entries]; simpl; [lia|].
    destruct (length entries =? 0)%nat; simpl; [lia|].
    unfold log. destruct (VERBOSE cfg || is_error type_info); simpl;
      match goal with
      | |- findings_count (snd (for_each _ _ ?s)) <= _ =>
          pose proof (for_each_analyze_entry_count cfg entries s) as H;
          unfold findings_count in *; simpl in *; lia
      end.
Qed.

(* --------------------------------------------------------------------- *)

Lemma filter_throwing_unreadable (values : list JSValue) :
  Exists (fun v => readable v = false) values ->
  exists e, filter_throwing is_high_severity values = inl e.
Proof.
  induction 1 as [v values Hv|v values _ [e IH]]; simpl.
  - destruct v; try discriminate; eexists; reflexivity.
  - destruct (is_high_severity v) as [e'|keep]; [eexists; reflexivity|].
    rewrite IH. eexists; reflexivity.
Qed.

Lemma checkSecurityVulnerabilities_unreadable_fresh (cfg : Config)
    (audit_props entries : list (string * JSValue)) :
  lookup "vulnerabilities" audit_props = JObject entries ->
  Exists (fun entry => readable (snd entry) = false) entries ->
  checkSecurityVulnerabilities cfg (ExecReturns (Json (JObject audit_props))) constructor
  = (Normal tt,
     mkState (if ALLOW_NETWORK_FAILURE cfg then []
              else ["Could not check security vulnerabilities"])
             []
             (log_lines cfg "Checking for security vulnerabilities..." type_info)).
Proof.
  intros Hlookup Hex. unfold checkSecurityVulnerabilities, try_catch.
  rewrite (bind_Normal _ _ _ _ _ (log_fresh cfg _ _)).
  set (st1 := mkState [] [] (log_lines cfg _ type_info)).
  rewrite (bind_Normal _ _ st1 st1 (Json (JObject audit_props)) eq_refl).
  rewrite (bind_Normal _ _ st1 st1 (JObject audit_props) eq_refl).
  rewrite (bind_Normal _ _ st1 st1 (JObject entries))
    by (simpl; rewrite Hlookup; reflexivity).
  change (truthy (JObject entries)) with true. cbv iota.
  rewrite (bind_Normal _ _ st1 st1 entries eq_refl).
  destruct entries as [|entry entries]; [inversion Hex|].
  change (0 <? length (entry :: entries))%nat with true. cbv iota.
  rewrite (bind_Normal _ _ st1 st1 (entry :: entries) eq_refl).
  assert (Hvalues : Exists (fun v => readable v = false) (map snd (entry :: entries))).
  { apply Exists_exists in Hex as (x & Hin & Hx). apply Exists_exists.
    exists (snd x). split; [apply in_map; exact Hin | exact Hx]. }
  destruct (filter_throwing_unreadable _ Hvalues) as [e He].
  rewrite (bind_Throw _ _ st1 st1 e) by (rewrite He; reflexivity).
  destruct (ALLOW_NETWORK_FAILURE cfg); reflexivity.
Qed.

(** X13: one [null] entry among the vulnerabilities hides all of them:
    the check then adds no error, however many high or critical entries
    the report has; it adds its warning when failures are not allowed and
    nothing at all when they are. *)
Theorem checkSecurityVulnerabilities_null_entry (cfg : Config)
    (audit_props entries : list (string * JSValue)) (st : State) :
  lookup "vulnerabilities" audit_props = JObject entries ->
  Exists (fun entry => readable (snd entry) = false) entries ->
  exists st',
    checkSecurityVulnerabilities cfg (ExecReturns (Json (JObject audit_props))) st
    = (Normal tt, st')
    /\ errors st' = errors st
    /\ warnings st'
       = (warnings st
          ++ (if ALLOW_NETWORK_FAILURE cfg then []
              else ["Could not check security vulnerabilities"]))%list.
Proof.
  intros Hlookup Hex. rewrite (appends_checkSecurityVulnerabilities cfg _ st).
  rewrite (checkSecurityVulnerabilities_unreadable_fresh cfg _ _ Hlookup Hex).
  eexists. split; [reflexivity|]. unfold extend; simpl.
  split; [apply app_nil_r | reflexivity].
Qed.

Lemma checkSecurityVulnerabilities_null_entry_witness :
  exists st',
    checkSecurityVulnerabilities (CONFIG None)
      (ExecReturns (Json (audit_report audit_with_null_entry))) constructor
    = (Normal tt, st')
    /\ errors st' = []
    /\ warnings st' = [].
Proof.
  apply (checkSecurityVulnerabilities_null_entry (CONFIG None)
           [("auditReportVersion", JNumber (Qmake 2 1));
            ("vulnerabilities", JObject audit_with_null_entry)]
           audit_with_null_entry constructor).
  - reflexivity.
  - apply Exists_cons_tl, Exists_cons_hd. reflexivity.
Defined.

Lemma checkSecurityVulnerabilities_fresh_cases (cfg : Config) (a : ExecOutcome) :
  let d := snd (checkSecurityVulnerabilities cfg a constructor) in
  console d = log_lines cfg "Checking for security vulnerabilities..." type_info
  /\ ((warnings d = [] /\ errors d = [])
      \/ (warnings d = [] /\ exists n, 0 < n /\ errors d = [audit_message n])
      \/ (ALLOW_NETWORK_FAILURE cfg = false
          /\ warnings d = ["Could not check security vulnerabilities"]
          /\ errors d = [])).
Proof.
  cbv zeta. unfold checkSecurityVulnerabilities, try_catch.
  rewrite (bind_Normal _ _ _ _ _ (log_fresh cfg _ _)).
  set (lines := log_lines cfg _ type_info).
  unfold bind, lift, execSync, JSON_parse, ret, throw, push_error, push_warning.
  destruct a as [e|[|e|v]];
    [ | | | destruct (get v "vulnerabilities") as [e|vul];
            [ | destruct (truthy vul);
                [ destruct (own_properties vul) as [e|keys];
                  [ | destruct (0 <? length keys)%nat;
                      [ destruct (filter_throwing is_high_severity (map snd keys))
                          as [e|hs];
                        [ | destruct (0 <? length hs)%nat eqn:Hpos ] | ] ] | ] ] ];
    destruct (ALLOW_NETWORK_FAILURE cfg) eqn:Hallow;
    cbn [snd negb console warnings errors app]; (split; [reflexivity|]);
    first
      [ left; split; reflexivity
      | right; right; repeat split; reflexivity
      | right; left; split; [reflexivity|];
        eexists; split; [|reflexivity]; apply Nat.ltb_lt; exact Hpos ].
Qed.

(** X14: whatever the audit query brought, the vulnerability check
    completes and changes the findings in one of three ways only: not at
    all; by one error, which carries a positive count; or, when failures
    are not allowed, by its one warning.  It prints its first line at
    most. *)
Theorem checkSecurityVulnerabilities_adds_at_most_one (cfg : Config)
    (a : ExecOutcome) (st : State) :
  exists st',
    checkSecurityVulnerabilities cfg a st = (Normal tt, st')
    /\ console st'
       = (console st
          ++ log_lines cfg "Checking for security vulnerabilities..." type_info)%list
    /\ ((warnings st' = warnings st /\ errors st' = errors st)
        \/ (warnings st' = warnings st
            /\ exists n, 0 < n /\ errors st' = (errors st ++ [audit_message n])%list)
        \/ (ALLOW_NETWORK_FAILURE cfg = false
            /\ warnings st'
               = (warnings st ++ ["Could not check security vulnerabilities"])%list
            /\ errors st' = errors st)).
Proof.
  pose proof (checkSecurityVulnerabilities_catches cfg a st) as Hcatch.
  pose proof (checkSecurityVulnerabilities_fresh_cases cfg a) as Hcases.
  cbv zeta in Hcases.
  rewrite (appends_checkSecurityVulnerabilities cfg a st) in *.
  cbn [fst] in Hcatch. rewrite Hcatch.
  destruct (snd (checkSecurityVulnerabilities cfg a constructor)) as [w e c].
  cbn [warnings errors console] in Hcases.
  destruct Hcases as [Hc Hcases].
  eexists. split; [reflexivity|]. unfold extend; cbn [warnings errors console].
  split; [now rewrite Hc|].
  destruct Hcases as [[-> ->]|[[-> (n & Hn & ->)]|(Hallow & -> & ->)]].
  - left. now rewrite !app_nil_r.
  - right; left. rewrite app_nil_r. split; [reflexivity|]. exists n. now split.
  - right; right. rewrite app_nil_r. repeat split. exact Hallow.
Qed.

(* --------------------------------------------------------------------- *)

Lemma analyzeOutdatedPackages_no_entries (cfg : Config) (v : JSValue) (st : State) :
  own_properties v = inr [] -> analyzeOutdatedPackages cfg v st = (Normal tt, st).
Proof.
  intros Hv. unfold analyzeOutdatedPackages, bind. rewrite Hv. reflexivity.
Qed.

Lemma checkSecurityVulnerabilities_nothing (cfg : Config) (a : ExecOutcome) :
  nothing_to_audit a ->
  checkSecurityVulnerabilities cfg a constructor
  = (Normal tt,
     mkState [] [] (log_lines cfg "Checking for security vulnerabilities..." type_info)).
Proof.
  destruct a as [e|[|e|audit]]; simpl; try contradiction.
  intros Ha. unfold checkSecurityVulnerabilities, try_catch.
  rewrite (bind_Normal _ _ _ _ _ (log_fresh cfg _ _)).
  unfold bind, lift, execSync, JSON_parse, ret, throw.
  destruct (get audit "vulnerabilities") as [e|vul]; [contradiction|].
  destruct Ha as [Ha|Ha].
  - rewrite Ha. reflexivity.
  - rewrite Ha. destruct (truthy vul); reflexivity.
Qed.

(** X15: when the outdated query says that nothing is outdated (blank
    output or a value without entries) and the audit report lists no
    vulnerability, a new checker's run exits with [0] and holds neither
    warning nor error, under every configuration. *)
Theorem run_nothing_to_report (cfg : Config) (o a : ExecOutcome) :
  nothing_outdated o -> nothing_to_audit a ->
  exists st',
    main cfg true o a = (Normal 0, st') /\ warnings st' = [] /\ errors st' = [].
Proof.
  intros Ho Ha. unfold main, run, try_catch. rewrite run_try_from_fresh.
  rewrite (checkSecurityVulnerabilities_nothing cfg a Ha). cbv zeta.
  assert (Hquery : exists v lines,
             getOutdatedPackages cfg o constructor = (Normal v, mkState [] [] lines)
             /\ own_properties v = inr []).
  { destruct o as [e|[|e|v]]; simpl in Ho; try contradiction.
    - rewrite getOutdatedPackages_blank. eexists _, _. split; reflexivity.
    - rewrite getOutdatedPackages_json. eexists _, _. split; [reflexivity | exact Ho]. }
  destruct Hquery as (v & lines & -> & Hv). cbn [fst snd].
  rewrite (analyzeOutdatedPackages_no_entries cfg v constructor Hv). cbn [fst snd].
  rewrite report_verdict. unfold extend; cbn [warnings errors console app].
  eexists. split; [reflexivity|]. split; reflexivity.
Qed.

Lemma run_nothing_to_report_witness :
  exists st',
    main (strict_config None) true (ExecReturns (Json (JArray [])))
         (ExecReturns (Json (audit_report [])))
    = (Normal 0, st')
    /\ warnings st' = [] /\ errors st' = [].
Proof.
  apply (run_nothing_to_report (strict_config None) (ExecReturns (Json (JArray [])))
           (ExecReturns (Json (audit_report [])))).
  - reflexivity.
  - right. reflexivity.
Defined.

(* --------------------------------------------------------------------- *)

Lemma blocking_finding_is_patch (props : list (string * JSValue)) :
  with_severity sev_blocking (spec_findings props) <> [] ->
  Exists (fun entry => entry_delta entry = delta_patch) props.
Proof.
  unfold spec_findings. induction props as [|entry props IH]; simpl.
  - intros H. exfalso. now apply H.
  - rewrite with_severity_app. intros H.
    destruct (with_severity sev_blocking (spec_finding entry)) as [|x xs] eqn:Hentry.
    + apply Exists_cons_tl, IH. exact H.
    + apply Exists_cons_hd. revert Hentry. unfold spec_finding, entry_delta.
      destruct (entry_versions (snd entry)) as [[c l]|]; [|discriminate].
      destruct (version_delta c l); simpl; solve [discriminate | reflexivity].
Qed.

(** X16: on a report of well-formed entries, a new checker's run exits
    with [1] for exactly two reasons: one of the entries has a patch
    delta, or the vulnerability check has added its error.  Nothing else
    blocks: not a major or a minor update, not a warning, under any
    configuration. *)
Theorem run_blocks_iff (cfg : Config) (props : list (string * JSValue))
    (a : ExecOutcome) :
  Forall well_formed_entry props ->
  (fst (main cfg true (ExecReturns (Json (JObject props))) a) = Normal 1
   <-> (Exists (fun entry => entry_delta entry = delta_patch) props
        \/ errors (snd (checkSecurityVulnerabilities cfg a constructor)) <> []))
  /\ (fst (main cfg true (ExecReturns (Json (JObject props))) a) = Normal 0
      <-> ~ (Exists (fun entry => entry_delta entry = delta_patch) props
             \/ errors (snd (checkSecurityVulnerabilities cfg a constructor)) <> [])).
Proof.
  intros Hwf. unfold main.
  destruct (run_well_formed cfg props a constructor Hwf) as (st' & -> & _ & He).
  cbn [fst]. simpl in He.
  assert (Hiff : errors st' <> []
                 <-> (Exists (fun entry => entry_delta entry = delta_patch) props
                      \/ errors (snd (checkSecurityVulnerabilities cfg a constructor))
                         <> [])).
  { rewrite He. split.
    - intros H.
      destruct (errors (snd (checkSecurityVulnerabilities cfg a constructor)))
        as [|x xs] eqn:Haudit.
      + left. apply blocking_finding_is_patch. exact H.
      + right. discriminate.
    - intros [H|H] Happ; apply app_eq_nil in Happ as [H1 H2].
      + exact (patch_entry_blocks props H H2).
      + exact (H H1). }
  destruct (errors st') as [|err errs]; simpl; split; split; intros H;
    try discriminate; try reflexivity.
  - exfalso. apply Hiff in H. congruence.
  - intros H'. apply Hiff in H'. congruence.
  - apply Hiff. discriminate.
  - exfalso. apply H, Hiff. discriminate.
Qed.

Lemma run_blocks_iff_witness :
  (fst (main (CONFIG None) true (ExecReturns (Json (JObject report_major_minor)))
             (ExecReturns (Json (JObject []))))
   = Normal 1
   <-> (Exists (fun entry => entry_delta entry = delta_patch) report_major_minor
        \/ errors (snd (checkSecurityVulnerabilities (CONFIG None)
                          (ExecReturns (Json (JObject []))) constructor)) <> []))
  /\ (fst (main (CONFIG None) true (ExecReturns (Json (JObject report_major_minor)))
               (ExecReturns (Json (JObject []))))
      = Normal 0
      <-> ~ (Exists (fun entry => entry_delta entry = delta_patch) report_major_minor
             \/ errors (snd (checkSecurityVulnerabilities (CONFIG None)
                               (ExecReturns (Json (JObject []))) constructor)) <> [])).
Proof.
  exact (run_blocks_iff (CONFIG None) report_major_minor
           (ExecReturns (Json (JObject []))) report_major_minor_well_formed).
Defined.

(* ===================================================================== *)
(** ** The hook script *)
(* ===================================================================== *)

Ltac hook_cases status :=
  unfold Hook.pre_commit_enhanced, Hook.script, Hook.seq, Hook.echo, Hook.exec;
  cbn [Hook.first_failure Hook.commands];
  destruct (N.eqb_spec (status "npx lint-staged") 0) as [H1|H1];
  [ destruct (N.eqb_spec (status "npm run test:run") 0) as [H2|H2];
    [ destruct (N.eqb_spec (status "npm run type-check") 0) as [H3|H3];
      [ destruct (N.eqb_spec (status "npm audit --audit-level=high") 0) as [H4|H4]
      | ]
    | ]
  | ];
  cbn [fst snd app].

(** X17: the hook exits with [0] exactly when lint-staged, the tests, the
    type check and the audit all exit with [0], and it prints its last
    line, that all checks passed, exactly then. *)
Theorem hook_passes_iff (status : string -> N) :
  (snd (Hook.pre_commit_enhanced status) = 0%N
   <-> (forall c, In c Hook.commands -> status c = 0%N))
  /\ (In "✅ All pre-commit checks passed!" (fst (Hook.pre_commit_enhanced status))
      <-> snd (Hook.pre_commit_enhanced status) = 0%N).
Proof.
  hook_cases status; (split; split; intros H);
    try solve
      [ reflexivity
      | contradiction
      | intros c [<-|[<-|[<-|[<-|[]]]]]; assumption
      | simpl; tauto
      | exfalso; simpl in H;
        repeat (destruct H as [H|H]; [discriminate|]); contradiction
      | exfalso;
        first [ apply H1 | apply H2 | apply H3 | apply H4 ];
        apply H; simpl; tauto ].
Qed.

(** X18: when one of the four commands fails, the hook stops at the first
    that does: it exits with the status of that command, and it has
    printed its heading and the announcements of the commands up to that
    one, and nothing of the later ones, whose status plays no part. *)
Theorem hook_stops_at_first_failure (status : string -> N) (c : string) :
  Hook.first_failure status Hook.commands = Some c ->
  status c <> 0%N
  /\ Hook.pre_commit_enhanced status
     = ("🔍 Running enhanced pre-commit checks..."
        :: map Hook.announcement (Hook.through (String.eqb c) Hook.commands),
        status c).
Proof.
  hook_cases status; intros H; inversion H; subst; clear H;
    (split; [assumption | reflexivity]).
Qed.

Lemma hook_stops_at_first_failure_witness :
  Hook.only_fails "npm run test:run" 2 "npm run test:run" <> 0%N
  /\ Hook.pre_commit_enhanced (Hook.only_fails "npm run test:run" 2)
     = (["🔍 Running enhanced pre-commit checks...";
         "📝 Running lint-staged...";
         "🧪 Running tests..."],
        2%N).
Proof.
  exact (hook_stops_at_first_failure (Hook.only_fails "npm run test:run" 2)
           "npm run test:run" eq_refl).
Defined.

(* ===================================================================== *)
(** ** The project setup and package.json *)
(* ===================================================================== *)

Lemma lookup_find (name : string) (props : list (string * JSValue)) :
  lookup name props = match Setup.find name props with
                      | Some v => v
                      | None => JUndefined
                      end.
Proof.
  induction props as [|[k v] props IH]; simpl; [reflexivity|].
  destruct (String.eqb k name); [reflexivity | exact IH].
Qed.

Lemma find_set_prop_eq (name : string) (value : JSValue) (props : list (string * JSValue)) :
  Setup.find name (Setup.set_prop name value props) = Some value.
Proof.
  induction props as [|[k v] props IH]; simpl.
  - now rewrite String.eqb_refl.
  - destruct (String.eqb k name) eqn:Hk; simpl; rewrite Hk; [reflexivity | exact IH].
Qed.

Lemma find_set_prop_ne (name other : string) (value : JSValue)
    (props : list (string * JSValue)) :
  other <> name ->
  Setup.find other (Setup.set_prop name value props) = Setup.find other props.
Proof.
  intros Hne. induction props as [|[k v] props IH]; simpl.
  - destruct (String.eqb_spec name other); [congruence | reflexivity].
  - destruct (String.eqb_spec k name) as [->|Hk]; simpl.
    + destruct (String.eqb_spec name other); [congruence | reflexivity].
    + destruct (String.eqb k other); [reflexivity | exact IH].
Qed.

Lemma set_prop_same (name : string) (value : JSValue) (props : list (string * JSValue)) :
  Setup.find name props = Some value -> Setup.set_prop name value props = props.
Proof.
  induction props as [|[k v] props IH]; simpl; [discriminate|].
  destruct (String.eqb k name) eqn:Hk.
  - intros H; inversion H; subst. reflexivity.
  - intros H. now rewrite (IH H).
Qed.

Lemma lookup_set_prop_eq (name : string) (value : JSValue)
    (props : list (string * JSValue)) :
  lookup name (Setup.set_prop name value props) = value.
Proof. now rewrite lookup_find, find_set_prop_eq. Qed.

(** X19: on a package.json that is an object, [setupLintStaged] writes
    nothing when a [lint-staged] configuration is there already; when
    there is none it writes the file once, with the default configuration
    under [lint-staged] and every other property as it was; and on the
    file it has written it writes nothing again. *)
Theorem setupLintStaged_adds_once (props : list (string * JSValue)) :
  (truthy (lookup "lint-staged" props) = true ->
   forall write,
     Setup.written (fst (Setup.setupLintStaged (inr (JObject props)) write)) = []
     /\ snd (Setup.setupLintStaged (inr (JObject props)) write) = inr tt)
  /\ (truthy (lookup "lint-staged" props) = false ->
      let props' := Setup.set_prop "lint-staged" Setup.lint_staged_config props in
      Setup.written (fst (Setup.setupLintStaged (inr (JObject props)) None))
      = [JObject props']
      /\ lookup "lint-staged" props' = Setup.lint_staged_config
      /\ (forall name, name <> "lint-staged" ->
                       Setup.find name props' = Setup.find name props)
      /\ forall write,
           Setup.written (fst (Setup.setupLintStaged (inr (JObject props')) write)) = []).
Proof.
  split.
  - intros Hthere write. unfold Setup.setupLintStaged. simpl. rewrite Hthere.
    split; reflexivity.
  - intros Habsent. cbv zeta. repeat split.
    + unfold Setup.setupLintStaged. simpl. rewrite Habsent. reflexivity.
    + apply lookup_set_prop_eq.
    + intros name Hne. now apply find_set_prop_ne.
    + intros write. unfold Setup.setupLintStaged. simpl.
      rewrite lookup_set_prop_eq. reflexivity.
Qed.

Lemma setupLintStaged_adds_once_witness :
  Setup.written (fst (Setup.setupLintStaged (inr (JObject Setup.sample_package)) None))
  = [JObject (Setup.sample_package
              ++ [("lint-staged", Setup.lint_staged_config)])].
Proof.
  exact (proj1 (proj2 (setupLintStaged_adds_once Setup.sample_package) eq_refl)).
Defined.

Lemma extend_object_quality_find (base : list (string * JSValue)) :
  let scripts := Setup.extend_object base Setup.qualityScripts in
  (forall name command,
      In (name, command) Setup.qualityScripts -> Setup.find name scripts = Some command)
  /\ (forall name,
        Setup.is_quality_script name = false ->
        Setup.find name scripts = Setup.find name base).
Proof.
  cbv zeta. unfold Setup.extend_object, Setup.qualityScripts. cbn [fold_left fst snd].
  split.
  - intros name command [H|[H|[H|[H|[]]]]]; inversion H; subst;
      repeat first [ apply find_set_prop_eq
                   | rewrite find_set_prop_ne by discriminate ].
  - intros name Hname. unfold Setup.is_quality_script, Setup.qualityScripts in Hname.
    cbn [existsb fst] in Hname.
    repeat (apply orb_false_iff in Hname as [? Hname]).
    repeat match goal with
           | H : String.eqb _ name = false |- _ => apply String.eqb_neq in H
           end.
    rewrite !find_set_prop_ne by congruence. reflexivity.
Qed.

(** X20: on a package.json that is an object, [setupQualityScripts]
    writes the file once.  In what it writes, each of the four quality
    scripts has its command, also where the project had a script of that
    name; every other script is the project's own; and every property of
    package.json other than [scripts] is as it was. *)
Theorem setupQualityScripts_result (props : list (string * JSValue)) :
  exists scripts,
    Setup.written (fst (Setup.setupQualityScripts (inr (JObject props)) None))
    = [JObject (Setup.set_prop "scripts" (JObject scripts) props)]
    /\ (forall name command,
           In (name, command) Setup.qualityScripts ->
           Setup.find name scripts = Some command)
    /\ (forall name,
           Setup.is_quality_script name = false ->
           Setup.find name scripts
           = Setup.find name (Setup.spread (lookup "scripts" props)))
    /\ (forall name,
           name <> "scripts" ->
           Setup.find name (Setup.set_prop "scripts" (JObject scripts) props)
           = Setup.find name props).
Proof.
  exists (Setup.extend_object (Setup.spread (lookup "scripts" props)) Setup.qualityScripts).
  split; [reflexivity|].
  destruct (extend_object_quality_find (Setup.spread (lookup "scripts" props)))
    as [Hq Hother].
  split; [exact Hq|]. split; [exact Hother|].
  intros name Hne. now apply find_set_prop_ne.
Qed.

Lemma extend_object_quality_idempotent (base : list (string * JSValue)) :
  let scripts := Setup.extend_object base Setup.qualityScripts in
  Setup.extend_object scripts Setup.qualityScripts = scripts.
Proof.
  cbv zeta. destruct (extend_object_quality_find base) as [Hq _]. cbv zeta in Hq.
  set (scripts := Setup.extend_object base Setup.qualityScripts) in *.
  unfold Setup.extend_object at 1. unfold Setup.qualityScripts at 1.
  cbn [fold_left fst snd].
  rewrite (set_prop_same "quality" _ scripts)
    by (apply Hq; unfold Setup.qualityScripts; simpl; tauto).
  rewrite (set_prop_same "quality:fix" _ scripts)
    by (apply Hq; unfold Setup.qualityScripts; simpl; tauto).
  rewrite (set_prop_same "outdated:check" _ scripts)
    by (apply Hq; unfold Setup.qualityScripts; simpl; tauto).
  apply set_prop_same. apply Hq. unfold Setup.qualityScripts. simpl. tauto.
Qed.

(** X21: [setupQualityScripts] changes nothing in a package.json it has
    written: applied to the properties it produced, it produces the same
    properties, in the same order. *)
Theorem setupQualityScripts_idempotent (props : list (string * JSValue)) :
  Setup.written (fst (Setup.setupQualityScripts (inr (JObject props)) None))
  = [JObject (Setup.with_quality_scripts props)]
  /\ Setup.written
       (fst (Setup.setupQualityScripts
               (inr (JObject (Setup.with_quality_scripts props))) None))
     = [JObject (Setup.with_quality_scripts props)].
Proof.
  split; [reflexivity|].
  change (Setup.written
            (fst (Setup.setupQualityScripts
                    (inr (JObject (Setup.with_quality_scripts props))) None)))
    with [JObject (Setup.with_quality_scripts (Setup.with_quality_scripts props))].
  f_equal. f_equal.
  unfold Setup.with_quality_scripts at 1.
  assert (Hscripts : lookup "scripts" (Setup.with_quality_scripts props)
                     = JObject (Setup.extend_object
                                  (Setup.spread (lookup "scripts" props))
                                  Setup.qualityScripts))
    by apply lookup_set_prop_eq.
  rewrite Hscripts. cbn [Setup.spread own_properties].
  rewrite extend_object_quality_idempotent.
  apply set_prop_same. apply find_set_prop_eq.
Qed.
